(** * parse_data.py: scraping, extraction and reshaping of leaderboard pages

    A shallow embedding of [parse_data.py], in four layers:

    - [Py]: the Python built-ins the script calls on strings, integers
      and bytes (slices, [strip], [split], [zfill], [str]);
    - [Bs4]: the BeautifulSoup tree and the queries the script uses
      ([find], [find_all], [.string], [getText]);
    - [Pd]: the pandas frame operations of [make_daily] and
      [make_yearly] ([DataFrame], [to_numeric], [add], [melt]);
    - the eight functions of the script, as computations over an
      explicit world: the two page directories, the two parquet
      files, standard output, the clock and the log of requests.

    Python [str] values are Rocq strings whose characters are the code
    points below 256; [bytes] values are lists of bytes.  The network,
    the HTML parser and the readers of [pd.to_numeric] and
    [pd.to_timedelta] are parameters of the script. *)

From Stdlib Require Import ZArith Lia Ascii String List Bool.
From Stdlib Require Import DecimalString DecimalZ Sorting.Permutation.
From Stdlib.Strings Require Import Byte.
From stdpp Require Import base option gmap strings list fin_maps.

Local Open Scope Z_scope.
Set Warnings "-register-all".

(** * Exceptions *)

(** The exception classes the script can meet. *)
Inductive exn : Type :=
  | AttributeError
  | ValueError
  | FileNotFoundError (path : string)
  | RequestException (msg : string).

(** A computation that returns or raises. *)
Inductive result (A : Type) : Type :=
  | Ok (a : A)
  | Raise (e : exn).
Arguments Ok {A} a.
Arguments Raise {A} e.

Global Instance result_ret : MRet result := fun _ a => Ok a.

Global Instance result_bind : MBind result := fun _ _ k r =>
  match r with
  | Ok a => k a
  | Raise e => Raise e
  end.

(** A list comprehension whose element expression may raise: elements
    are evaluated left to right and the first exception ends it. *)
Fixpoint rmap {A B} (f : A -> result B) (l : list A) : result (list B) :=
  match l with
  | [] => Ok []
  | a :: l' =>
      b ← f a;
      bs ← rmap f l';
      Ok (b :: bs)
  end.

(** * Python built-ins *)

Module Py.

(** [str.isspace] on one character, for code points below 256. *)
Definition isspace (c : ascii) : bool :=
  let n := N_of_ascii c in
  ((9 <=? n) && (n <=? 13) || (28 <=? n) && (n <=? 32)
   || (n =? 133) || (n =? 160))%N.

Fixpoint lstrip (s : string) : string :=
  match s with
  | EmptyString => EmptyString
  | String c s' => if isspace c then lstrip s' else s
  end.

Fixpoint rstrip (s : string) : string :=
  match s with
  | EmptyString => EmptyString
  | String c s' =>
      match rstrip s' with
      | EmptyString => if isspace c then EmptyString else String c EmptyString
      | r => String c r
      end
  end.

(** [s.strip()] *)
Definition strip (s : string) : string := rstrip (lstrip s).

Fixpoint drop (n : nat) (s : string) : string :=
  match n, s with
  | O, _ => s
  | S n', EmptyString => EmptyString
  | S n', String _ s' => drop n' s'
  end.

Fixpoint take (n : nat) (s : string) : string :=
  match n, s with
  | O, _ => EmptyString
  | S n', EmptyString => EmptyString
  | S n', String c s' => String c (take n' s')
  end.

(** A slice bound: negative indices count from the end, and every
    index is clamped to [0 .. len]. *)
Definition clamp (len : Z) (i : Z) : Z :=
  if i <? 0 then Z.max (i + len) 0 else Z.min i len.

(** [s[start:stop]], where [None] is an omitted bound. *)
Definition slice (start stop : option Z) (s : string) : string :=
  let len := Z.of_nat (String.length s) in
  let lo := match start with Some i => clamp len i | None => 0 end in
  let hi := match stop with Some i => clamp len i | None => len end in
  take (Z.to_nat (hi - lo)) (drop (Z.to_nat lo) s).

(** [s.split()]: the maximal runs of non-whitespace characters.
    [cur] is the run being read, in reverse. *)
Fixpoint split_aux (cur : list ascii) (s : string) : list string :=
  let flush (rest : list string) :=
    match cur with
    | [] => rest
    | _ => string_of_list_ascii (rev cur) :: rest
    end in
  match s with
  | EmptyString => flush []
  | String c s' =>
      if isspace c then flush (split_aux [] s') else split_aux (c :: cur) s'
  end.

Definition split (s : string) : list string := split_aux [] s.

(** [str(n)] for an [int]. *)
Definition str (n : Z) : string := NilZero.string_of_int (Z.to_int n).

Fixpoint zeros (n : nat) : string :=
  match n with
  | O => EmptyString
  | S n' => String "0" (zeros n')
  end.

(** [s.zfill(width)]: zeros go after a leading sign. *)
Definition zfill (width : nat) (s : string) : string :=
  let pad := zeros (width - String.length s) in
  match s with
  | String c s' =>
      if (Ascii.eqb c "+" || Ascii.eqb c "-")%char
      then String c (pad +:+ s')
      else pad +:+ s
  | EmptyString => pad
  end.

Definition hexdigit (n : N) : ascii :=
  if (n <? 10)%N then ascii_of_N (48 + n) else ascii_of_N (87 + n).

(** [str(b)] for a [bytes] object is its [repr]: the literal that
    denotes it.  The quote is the single quote unless the value holds
    a single quote and no double quote. *)
Definition repr_byte (quote : ascii) (b : byte) : string :=
  let c := ascii_of_byte b in
  let n := N_of_ascii c in
  if (Ascii.eqb c quote || Ascii.eqb c "\")%char then String "\" (String c EmptyString)
  else if (n =? 9)%N then "\t"
  else if (n =? 10)%N then "\n"
  else if (n =? 13)%N then "\r"
  else if ((n <? 32) || (127 <=? n))%N
       then String "\" (String "x" (String (hexdigit (n / 16))
              (String (hexdigit (n mod 16)) EmptyString)))
  else String c EmptyString.

Definition squote : ascii := ascii_of_N 39.
Definition dquote : ascii := ascii_of_N 34.

Definition has_byte (c : ascii) (b : list byte) : bool :=
  existsb (fun x => Ascii.eqb (ascii_of_byte x) c) b.

Definition str_bytes (b : list byte) : string :=
  let quote : ascii :=
    if has_byte squote b && negb (has_byte dquote b) then dquote else squote in
  String "b" (String quote
    (fold_right (fun x acc => repr_byte quote x +:+ acc)
                (String quote EmptyString) b)).

End Py.

(** * BeautifulSoup trees *)

Module Bs4.

(** A parsed document.  [Comment] stands for every string node that
    [getText] leaves out (comments, doctypes, declarations). *)
Inductive node : Type :=
  | NavigableString (s : string)
  | Comment (s : string)
  | Tag (name : string) (class_ : list string) (contents : list node).

(** Everything below a node, in document order. *)
Fixpoint descendants (n : node) : list node :=
  match n with
  | Tag _ _ cs =>
      (fix go (l : list node) : list node :=
         match l with
         | [] => []
         | c :: l' => c :: descendants c ++ go l'
         end) cs
  | _ => []
  end.

Definition is_tag (name : string) (n : node) : bool :=
  match n with
  | Tag nm _ _ => String.eqb nm name
  | _ => false
  end.

(** A tag matches [class_=c] when [c] is one of its classes. *)
Definition has_class (c : string) (n : node) : bool :=
  match n with
  | Tag _ cls _ => existsb (String.eqb c) cls
  | _ => false
  end.

(** [n.find_all(name)] *)
Definition find_all (name : string) (n : node) : list node :=
  List.filter (is_tag name) (descendants n).

(** [n.find(name)], also written [n.name]; [None] when there is no
    such tag. *)
Definition find (name : string) (n : node) : option node :=
  head (find_all name n).

(** [n.find(class_=c)] *)
Definition find_class (c : string) (n : node) : option node :=
  head (List.filter (has_class c) (descendants n)).

(** [n.string]: the one string a node holds, through any chain of
    only children; [None] otherwise. *)
Fixpoint string_ (n : node) : option string :=
  match n with
  | NavigableString s => Some s
  | Comment s => Some s
  | Tag _ _ [c] => string_ c
  | Tag _ _ _ => None
  end.

(** [n.getText()]: the text strings below [n], joined. *)
Fixpoint getText (n : node) : string :=
  match n with
  | NavigableString s => s
  | Comment _ => EmptyString
  | Tag _ _ cs =>
      (fix go (l : list node) : string :=
         match l with
         | [] => EmptyString
         | c :: l' => getText c +:+ go l'
         end) cs
  end.

End Bs4.

(** * Extraction of records from a page *)

(** A field of a Python tuple. *)
Inductive pyval : Type :=
  | PyInt (z : Z)
  | PyStr (s : string).

(** A Python tuple. *)
Definition record : Type := list pyval.

(** [enumerate(l)] *)
Definition enumerate {A} (l : list A) : list (nat * A) :=
  zip (seq 0 (length l)) l.

(** Attribute access on a value that may be [None]. *)
Definition getattr {A} (o : option A) : result A :=
  match o with
  | Some a => Ok a
  | None => Raise AttributeError
  end.

(** [entry.find(class_=cls).string.strip()] *)
Definition find_string_strip (cls : string) (entry : Bs4.node) : result string :=
  t ← getattr (Bs4.find_class cls entry);
  s ← getattr (Bs4.string_ t);
  Ok (Py.strip s).

(** The element expression of the comprehension in [parse_daily]. *)
Definition daily_entry (year day : string) (ie : nat * Bs4.node) : result record :=
  let '(i, entry) := ie in
  let completion := if (99 <? i)%nat then "first" else "second" in
  position ← find_string_strip "leaderboard-position" entry;
  time ← find_string_strip "leaderboard-time" entry;
  Ok [PyStr year; PyStr day; PyStr completion;
      PyStr (Py.slice None (Some (-1)) position);
      PyStr (Py.slice (Some (-8)) None time)].

(** The comprehension of [parse_daily] on one parsed page. *)
Definition parse_daily_page (year day : string) (page : Bs4.node) : result (list record) :=
  main ← getattr (Bs4.find "main" page);
  rmap (daily_entry year day) (enumerate (Bs4.find_all "div" main)).

(** The element expression of the comprehension in [parse_yearly]. *)
Definition yearly_entry (year : string) (ie : nat * Bs4.node) : record :=
  let '(_, entry) := ie in
  PyStr year :: map PyStr (firstn 3 (Py.split (Bs4.getText entry))).

(** The comprehension of [parse_yearly] on one parsed page. *)
Definition parse_yearly_page (year : string) (page : Bs4.node) : result (list record) :=
  main ← getattr (Bs4.find "main" page);
  pre ← getattr (Bs4.find "pre" main);
  Ok (map (yearly_entry year) (enumerate (Bs4.find_all "a" pre))).

(** Sample pages. *)
Definition leaderboard_entry (position time : string) : Bs4.node :=
  Bs4.Tag "div" ["leaderboard-entry"]
    [Bs4.Tag "span" ["leaderboard-position"] [Bs4.NavigableString position];
     Bs4.NavigableString " ";
     Bs4.Tag "span" ["leaderboard-time"] [Bs4.NavigableString time];
     Bs4.Tag "a" [] [Bs4.NavigableString "someone"]].

Definition leaderboard_page (entries : list Bs4.node) : Bs4.node :=
  Bs4.Tag "[document]" []
    [Bs4.Tag "html" []
       [Bs4.Tag "body" []
          [Bs4.Tag "main" [] (Bs4.Tag "p" [] [Bs4.NavigableString "First hundred"] :: entries)]]].

Definition stats_page (anchors : list Bs4.node) : Bs4.node :=
  Bs4.Tag "[document]" []
    [Bs4.Tag "html" []
       [Bs4.Tag "body" []
          [Bs4.Tag "main" [] [Bs4.Tag "pre" [] anchors]]]].

Definition stats_anchor (day both firstonly : string) : Bs4.node :=
  Bs4.Tag "a" []
    [Bs4.NavigableString day;
     Bs4.Tag "span" ["stats-both"] [Bs4.NavigableString both];
     Bs4.NavigableString "  ";
     Bs4.Tag "span" ["stats-firstonly"] [Bs4.NavigableString firstonly];
     Bs4.NavigableString "  ";
     Bs4.Tag "span" ["stats-both"] [Bs4.NavigableString "**"]].

(** * pandas frames *)

Module Pd.

(** A cell read from a tuple; [None] is the filler pandas puts where a
    tuple is shorter than the longest one. *)
Definition obj : Type := option pyval.

(** A numeric cell; [None] is the missing value NaN. *)
Definition cell : Type := option Z.

(** The longest tuple of the data. *)
Definition width (records : list record) : nat :=
  fold_right (fun r m => Nat.max (length r) m) O records.

Definition pad (ncols : nat) (r : record) : list obj :=
  map Some r ++ replicate (ncols - length r) None.

(** [pd.DataFrame(records, columns=...)] for a list of tuples and
    [ncols] column names: no data gives the empty frame, short tuples
    are filled up, and data whose longest tuple has not [ncols] fields
    is refused. *)
Definition DataFrame (records : list record) (ncols : nat) : result (list (list obj)) :=
  match records with
  | [] => Ok []
  | _ => if (width records =? ncols)%nat
         then Ok (map (pad ncols) records)
         else Raise ValueError
  end.

(** A row of the yearly frame before the reshape. *)
Record wide : Type := Wide { w_year : cell; w_day : cell; w_second : cell; w_first : cell }.

(** A row of the yearly frame. *)
Record yearly_row : Type :=
  YearlyRow { y_year : cell; y_day : cell; y_completion : string; y_count : cell }.

(** A row of the daily frame; [d_time] is in nanoseconds. *)
Record daily_row : Type :=
  DailyRow { d_year : cell; d_day : cell; d_completion : obj; d_position : cell; d_time : cell }.

(** [a.add(b)] on one row: a missing operand gives a missing sum. *)
Definition add (a b : cell) : cell :=
  match a, b with
  | Some x, Some y => Some (x + y)
  | _, _ => None
  end.

(** [melt(['year', 'day'], ['first', 'second'], var_name='completion',
    value_name='count')]: one block of rows per value column, in the
    order the value columns are listed. *)
Definition melt (ws : list wide) : list yearly_row :=
  map (fun w => YearlyRow (w_year w) (w_day w) "first" (w_first w)) ws
  ++ map (fun w => YearlyRow (w_year w) (w_day w) "second" (w_second w)) ws.

Section Readers.

(** What [pd.to_numeric] makes of a string, on integer columns: an
    integer, a missing value, or [ValueError].  Strings that pandas
    reads as fractions are outside the embedding. *)
Variable numeric_of_str : string -> result cell.

(** What [pd.to_timedelta] makes of a field, in nanoseconds. *)
Variable timedelta_of : pyval -> result cell.

(** [pd.to_numeric] on one cell of an object column. *)
Definition to_numeric (v : obj) : result cell :=
  match v with
  | None => Ok None
  | Some (PyInt z) => Ok (Some z)
  | Some (PyStr s) => numeric_of_str s
  end.

(** [pd.to_timedelta] on one cell of an object column. *)
Definition to_timedelta (v : obj) : result cell :=
  match v with
  | None => Ok None
  | Some x => timedelta_of x
  end.

(** [yearly.apply(pd.to_numeric)] on one row of four columns. *)
Definition numeric_wide (r : list obj) : result wide :=
  match r with
  | [y; d; s; f] =>
      y' ← to_numeric y;
      d' ← to_numeric d;
      s' ← to_numeric s;
      f' ← to_numeric f;
      Ok (Wide y' d' s' f')
  | _ => Raise ValueError
  end.

(** Lines 175 to 179 of [make_yearly]: the frame built from the
    parsed tuples.  The last [to_numeric] finds the three columns
    numeric already and returns them as they are. *)
Definition make_yearly_frame (yearly : list record) : result (list yearly_row) :=
  yearly ← DataFrame yearly 4;
  yearly ← rmap numeric_wide yearly;
  let yearly := map (fun w => Wide (w_year w) (w_day w) (w_second w)
                                   (add (w_second w) (w_first w))) yearly in
  let yearly := melt yearly in
  Ok yearly.

(** The two conversions of [make_daily] on one row of five columns. *)
Definition typed_daily (r : list obj) : result daily_row :=
  match r with
  | [y; d; c; p; t] =>
      y' ← to_numeric y;
      d' ← to_numeric d;
      p' ← to_numeric p;
      t' ← to_timedelta t;
      Ok (DailyRow y' d' c p' t')
  | _ => Raise ValueError
  end.

(** Lines 83 to 85 of [make_daily]. *)
Definition make_daily_frame (records : list record) : result (list daily_row) :=
  records ← DataFrame records 5;
  rmap typed_daily records.

End Readers.

(** ** The readers on plain literals *)

Definition digit (c : ascii) : option Z :=
  let n := N_of_ascii c in
  if ((48 <=? n) && (n <=? 57))%N then Some (Z.of_N n - 48) else None.

Fixpoint digits (acc : Z) (s : string) : option Z :=
  match s with
  | EmptyString => Some acc
  | String c s' =>
      match digit c with
      | Some d => digits (10 * acc + d) s'
      | None => None
      end
  end.

(** A decimal integer literal: an optional sign and one digit or more. *)
Definition int_literal (s : string) : option Z :=
  match s with
  | EmptyString => None
  | String c s' =>
      if Ascii.eqb c "-" then
        match s' with EmptyString => None | _ => Z.opp <$> digits 0 s' end
      else if Ascii.eqb c "+" then
        match s' with EmptyString => None | _ => digits 0 s' end
      else digits 0 s
  end.

(** [pd.to_numeric] on integer literals; every other string is taken
    as refused. *)
Definition numeric_of_literal (s : string) : result cell :=
  match int_literal (Py.strip s) with
  | Some z => Ok (Some z)
  | None => Raise ValueError
  end.

(** [pd.to_timedelta] on strings of the shape HH:MM:SS; every other
    field is taken as refused. *)
Definition timedelta_of_hms (v : pyval) : result cell :=
  match v with
  | PyStr s =>
      match digits 0 (Py.slice (Some 0) (Some 2) s),
            digits 0 (Py.slice (Some 3) (Some 5) s),
            digits 0 (Py.slice (Some 6) (Some 8) s) with
      | Some h, Some m, Some sec =>
          if String.eqb (Py.slice (Some 2) (Some 3) s) ":"
             && String.eqb (Py.slice (Some 5) (Some 6) s) ":"
             && (String.length s =? 8)%nat && (m <? 60) && (sec <? 60)
          then Ok (Some (1000000000 * (3600 * h + 60 * m + sec)))
          else Raise ValueError
      | _, _, _ => Raise ValueError
      end
  | PyInt _ => Raise ValueError
  end.

End Pd.

(** * The world of the script *)

(** What the script can see and change: the two page directories (a
    map from file name to text, [None] while the directory does not
    exist), the two parquet files,
    standard output, the seconds slept and the URLs requested.  The
    working directory is taken to be the directory of the script. *)
Record world : Type := World {
  daily_data : option (gmap string string);
  yearly_data : option (gmap string string);
  daily_parquet : option (list Pd.daily_row);
  yearly_parquet : option (list Pd.yearly_row);
  stdout : list string;
  clock : nat;
  requested : list string
}.

(** A computation on the world that returns or raises. *)
Definition M (A : Type) : Type := world -> result A * world.

Global Instance M_ret : MRet M := fun _ a w => (Ok a, w).

Global Instance M_bind : MBind M := fun _ _ k m w =>
  match m w with
  | (Ok a, w') => k a w'
  | (Raise e, w') => (Raise e, w')
  end.

Definition raise {A} (e : exn) : M A := fun w => (Raise e, w).

Definition lift {A} (r : result A) : M A := fun w => (r, w).

(** [try: body except Exception as e: handler(e)] *)
Definition try_except {A} (body : M A) (handler : exn -> M A) : M A := fun w =>
  match body w with
  | (Ok a, w') => (Ok a, w')
  | (Raise e, w') => handler e w'
  end.

(** [for x in l: body(x)] *)
Fixpoint for_ {A} (l : list A) (body : A -> M unit) : M unit :=
  match l with
  | [] => mret tt
  | x :: l' => body x ≫= fun _ => for_ l' body
  end.

(** [range(a, b)] *)
Definition range (a b : Z) : list Z :=
  map (fun i => a + Z.of_nat i) (seq 0 (Z.to_nat (b - a))).
Arguments range : simpl never.

Definition print (line : string) : M unit := fun w =>
  (Ok tt, World (daily_data w) (yearly_data w) (daily_parquet w) (yearly_parquet w)
                (stdout w ++ [line]) (clock w) (requested w)).

Definition sleep (seconds : nat) : M unit := fun w =>
  (Ok tt, World (daily_data w) (yearly_data w) (daily_parquet w) (yearly_parquet w)
                (stdout w) (clock w + seconds) (requested w)).

Definition set_daily_data (d : option (gmap string string)) (w : world) : world :=
  World d (yearly_data w) (daily_parquet w) (yearly_parquet w)
        (stdout w) (clock w) (requested w).

Definition set_yearly_data (d : option (gmap string string)) (w : world) : world :=
  World (daily_data w) d (daily_parquet w) (yearly_parquet w)
        (stdout w) (clock w) (requested w).

(** [str(e)] *)
Definition exn_str (e : exn) : string :=
  match e with
  | AttributeError => "AttributeError"
  | ValueError => "ValueError"
  | FileNotFoundError path => "[Errno 2] No such file or directory: '" +:+ path +:+ "'"
  | RequestException msg => msg
  end.

(** [if not exists(d): mkdir(d)] for the two directories. *)
Definition ensure_daily_data : M unit := fun w =>
  (Ok tt, match daily_data w with
          | Some _ => w
          | None => set_daily_data (Some ∅) w
          end).

Definition ensure_yearly_data : M unit := fun w =>
  (Ok tt, match yearly_data w with
          | Some _ => w
          | None => set_yearly_data (Some ∅) w
          end).

(** [with open(path, 'w') as fh: fh.write(text)] in the two
    directories; [name] is the file name inside the directory. *)
Definition write_daily (name text : string) : M unit := fun w =>
  match daily_data w with
  | Some d => (Ok tt, set_daily_data (Some (<[name := text]> d)) w)
  | None => (Raise (FileNotFoundError ("./daily_data/" +:+ name)), w)
  end.

Definition write_yearly (name text : string) : M unit := fun w =>
  match yearly_data w with
  | Some d => (Ok tt, set_yearly_data (Some (<[name := text]> d)) w)
  | None => (Raise (FileNotFoundError ("./yearly_data/" +:+ name)), w)
  end.

(** [open(path)] for reading, cut down to what the script does with
    it: the text of the file, or [None] when it cannot be opened. *)
Definition read_daily (name : string) (w : world) : option string :=
  daily_data w ≫= fun d => d !! name.

Definition read_yearly (name : string) (w : world) : option string :=
  yearly_data w ≫= fun d => d !! name.

(** [listdir(path)]: the file names, in the order the map lists them. *)
Definition listdir (d : option (gmap string string)) (path : string) : M (list string) :=
  match d with
  | Some d => mret (map_to_list d).*1
  | None => raise (FileNotFoundError path)
  end.

(** * The script *)

(** What [requests.get] comes back with: a response, or an exception
    with its message. *)
Inductive reply : Type :=
  | Response (status_code : Z) (content : list byte)
  | Failure (msg : string).

(** [requests.codes.ok] *)
Definition codes_ok : Z := 200.

Definition daily_url (year day : Z) : string :=
  "http://www.adventofcode.com/" +:+ Py.str year +:+ "/leaderboard/day/" +:+ Py.str day.

Definition yearly_url (year : Z) : string :=
  "http://www.adventofcode.com/" +:+ Py.str year +:+ "/stats".

(** The file name [{year}-{day, two digits}.html]. *)
Definition daily_name (year day : Z) : string :=
  Py.str year +:+ "-" +:+ Py.zfill 2 (Py.str day) +:+ ".html".

(** The file name [{year}-stats.html]. *)
Definition yearly_name (year : Z) : string :=
  Py.str year +:+ "-stats.html".

Section Script.

(** The network, the HTML parser and the two pandas readers. *)
Variable network : string -> reply.
Variable html_parser : string -> Bs4.node.
Variable numeric_of_str : string -> result Pd.cell.
Variable timedelta_of : pyval -> result Pd.cell.

(** [requests.get(url)] *)
Definition requests_get (url : string) : M (Z * list byte) := fun w =>
  let w' := World (daily_data w) (yearly_data w) (daily_parquet w) (yearly_parquet w)
                  (stdout w) (clock w) (requested w ++ [url]) in
  match network url with
  | Response status_code content => (Ok (status_code, content), w')
  | Failure msg => (Raise (RequestException msg), w')
  end.

(** The body of the inner loop of [download_daily]. *)
Definition download_daily_one (year day : Z) : M unit :=
  try_except
    (req ← requests_get (daily_url year day);
     let '(status_code, content) := req in
     if status_code =? codes_ok then
       write_daily (daily_name year day) (Py.str_bytes content) ≫= fun _ =>
       print ("Downloaded year " +:+ Py.str year +:+ ", day " +:+ Py.str day)
     else
       print ("Response for request " +:+ Py.str year +:+ "-" +:+ Py.str day
              +:+ " is " +:+ Py.str status_code))
    (fun e =>
       print ("Failed download/read of " +:+ Py.str year +:+ "-" +:+ Py.str day
              +:+ " with: " +:+ exn_str e))
  ≫= fun _ => sleep 1.

Definition download_daily (first_year last_year : Z) : M unit :=
  print ("Requesting all information for year " +:+ Py.str first_year
         +:+ " to " +:+ Py.str last_year) ≫= fun _ =>
  ensure_daily_data ≫= fun _ =>
  for_ (range first_year (last_year + 1)) (fun year =>
    for_ (range 1 (25 + 1)) (fun day =>
      download_daily_one year day)).

(** The body of the loop of [parse_daily]; [records] is the list
    the loop extends. *)
Definition parse_daily_file (file : string) (records : list record) : M (list record) :=
  let year := Py.slice None (Some 4) file in
  let day := Py.slice (Some 5) (Some 7) file in
  fun w =>
    match read_daily (year +:+ "-" +:+ day +:+ ".html") w with
    | None =>
        (print ("Cannot find " +:+ year +:+ "-" +:+ day +:+ ".html") ≫= fun _ =>
         mret records) w
    | Some text =>
        (new ← lift (parse_daily_page year day (html_parser text));
         mret (records ++ new)) w
    end.

Fixpoint parse_files (body : string -> list record -> M (list record))
    (files : list string) (records : list record) : M (list record) :=
  match files with
  | [] => mret records
  | file :: files' => body file records ≫= parse_files body files'
  end.

Definition parse_daily : M (list record) := fun w =>
  (files ← listdir (daily_data w) "./daily_data/";
   parse_files parse_daily_file files []) w.

Definition to_parquet_daily (frame : list Pd.daily_row) : M unit := fun w =>
  (Ok tt, World (daily_data w) (yearly_data w) (Some frame) (yearly_parquet w)
                (stdout w) (clock w) (requested w)).

Definition make_daily (download : bool) (first_year last_year : Z) : M (list Pd.daily_row) :=
  (if download then download_daily first_year last_year else mret tt) ≫= fun _ =>
  records ← parse_daily;
  records ← lift (Pd.make_daily_frame numeric_of_str timedelta_of records);
  to_parquet_daily records ≫= fun _ =>
  mret records.

(** [pd.read_parquet('daily.parquet')] *)
Definition get_daily : M (list Pd.daily_row) := fun w =>
  match daily_parquet w with
  | Some frame => (Ok frame, w)
  | None => (Raise (FileNotFoundError "daily.parquet"), w)
  end.

(** The body of the loop of [download_yearly]. *)
Definition download_yearly_one (year : Z) : M unit :=
  try_except
    (req ← requests_get (yearly_url year);
     let '(status_code, content) := req in
     if status_code =? codes_ok then
       write_yearly (yearly_name year) (Py.str_bytes content) ≫= fun _ =>
       print ("Downloaded year " +:+ Py.str year +:+ " stats")
     else
       print ("Response for request " +:+ Py.str year +:+ " stats is "
              +:+ Py.str status_code))
    (fun e =>
       print ("Failed download/read of " +:+ Py.str year +:+ " stats with: "
              +:+ exn_str e))
  ≫= fun _ => sleep 1.

Definition download_yearly (first_year last_year : Z) : M unit :=
  ensure_yearly_data ≫= fun _ =>
  print ("Requesting stats information for year " +:+ Py.str first_year
         +:+ " to " +:+ Py.str last_year) ≫= fun _ =>
  for_ (range first_year (last_year + 1)) (fun year =>
    download_yearly_one year).

(** The body of the loop of [parse_yearly]. *)
Definition parse_yearly_file (file : string) (records : list record) : M (list record) :=
  let year := Py.slice None (Some 4) file in
  fun w =>
    match read_yearly (year +:+ "-stats.html") w with
    | None =>
        (print ("Cannot find " +:+ year +:+ "-stats.html") ≫= fun _ =>
         mret records) w
    | Some text =>
        (new ← lift (parse_yearly_page year (html_parser text));
         mret (records ++ new)) w
    end.

Definition parse_yearly : M (list record) := fun w =>
  (files ← listdir (yearly_data w) "./yearly_data/";
   parse_files parse_yearly_file files []) w.

Definition to_parquet_yearly (frame : list Pd.yearly_row) : M unit := fun w =>
  (Ok tt, World (daily_data w) (yearly_data w) (daily_parquet w) (Some frame)
                (stdout w) (clock w) (requested w)).

Definition make_yearly (download : bool) (first_year last_year : Z) : M (list Pd.yearly_row) :=
  (if download then download_yearly first_year last_year else mret tt) ≫= fun _ =>
  yearly ← parse_yearly;
  yearly ← lift (Pd.make_yearly_frame numeric_of_str yearly);
  to_parquet_yearly yearly ≫= fun _ =>
  mret yearly.

(** [pd.read_parquet('yearly.parquet')] *)
Definition get_yearly : M (list Pd.yearly_row) := fun w =>
  match yearly_parquet w with
  | Some frame => (Ok frame, w)
  | None => (Raise (FileNotFoundError "yearly.parquet"), w)
  end.

End Script.

(** A world with nothing in it. *)
Definition empty_world : world := World None None None None [] 0 [].

(** A network that serves one leaderboard body for day 1 of 2015, fails
    to connect for day 2, and answers 404 elsewhere. *)
Definition sample_body : list byte := [x3c; x70; x3e; x68; x69; x3c; x2f; x70; x3e; x0a].

Definition sample_network (url : string) : reply :=
  if String.eqb url (daily_url 2015 1) then Response 200 sample_body
  else if String.eqb url (yearly_url 2015) then Response 200 sample_body
  else if String.eqb url (daily_url 2015 2) then Failure "Connection refused"
  else if String.eqb url (yearly_url 2016) then Failure "Connection refused"
  else Response 404 [].

(** * Notions the statements use *)

(** The string of the first element of class [cls] below an entry. *)
Definition entry_field (cls : string) (entry : Bs4.node) : option string :=
  Bs4.find_class cls entry ≫= Bs4.string_.

(** A leaderboard entry block holds a position field and a time field,
    each with one string. *)
Definition is_entry_block (entry : Bs4.node) : bool :=
  match entry_field "leaderboard-position" entry,
        entry_field "leaderboard-time" entry with
  | Some _, Some _ => true
  | _, _ => false
  end.

(** The rank in the words of the specification: the position field
    without the characters after its last digit. *)
Fixpoint rank_per_spec (position : string) : string :=
  match position with
  | EmptyString => EmptyString
  | String c s' =>
      match rank_per_spec s' with
      | EmptyString =>
          match Pd.digit c with
          | Some _ => String c EmptyString
          | None => EmptyString
          end
      | r => String c r
      end
  end.

(** A daily page of 101 entries with the position fields 1. to 101. *)
Definition entries_101 : list Bs4.node :=
  map (fun i => leaderboard_entry (Py.str (Z.of_nat i) +:+ ".") "00:12:34") (seq 1 101).


Definition page_101 : Bs4.node := leaderboard_page entries_101.





(** A reply that is not a response of status OK: another status, or
    an exception of the request. *)
Definition failing (r : reply) : Prop :=
  match r with
  | Response status_code _ => status_code <> codes_ok
  | Failure _ => True
  end.

(** The line [download_daily] prints for a failing reply. *)
Definition daily_failure_line (year day : Z) (r : reply) : string :=
  match r with
  | Response status_code _ =>
      "Response for request " +:+ Py.str year +:+ "-" +:+ Py.str day
      +:+ " is " +:+ Py.str status_code
  | Failure msg =>
      "Failed download/read of " +:+ Py.str year +:+ "-" +:+ Py.str day
      +:+ " with: " +:+ msg
  end.

(** The line [download_yearly] prints for a failing reply. *)
Definition yearly_failure_line (year : Z) (r : reply) : string :=
  match r with
  | Response status_code _ =>
      "Response for request " +:+ Py.str year +:+ " stats is " +:+ Py.str status_code
  | Failure msg =>
      "Failed download/read of " +:+ Py.str year +:+ " stats with: " +:+ msg
  end.

(** A computation keeps an observation [f] of the world when running
    it, to a result or to an exception, leaves [f] as it was. *)
Definition keeps {A X} (f : world -> X) (m : M A) : Prop :=
  forall w, f (m w).2 = f w.

(** The two parquet files, seen together. *)
Definition parquets (w : world) : option (list Pd.daily_row) * option (list Pd.yearly_row) :=
  (daily_parquet w, yearly_parquet w).

(** A parser that answers every text with the page of 101 entries, and
    a world whose daily directory holds one file. *)
Definition sample_parser (text : string) : Bs4.node := page_101.

Definition sample_world : world :=
  World (Some {[ "2015-01.html" := "b'<main></main>'" ]})
        (Some {[ "2015-stats.html" := "b'<main><pre></pre></main>'" ]})
        None None [] 0 [].

(** A token: a string that is not empty and holds no white space. *)
Definition token (s : string) : Prop :=
  s <> "" /\ Forall (fun c => Py.isspace c = false) (list_ascii_of_string s).

(** What one file of the daily directory adds to the records of
    [parse_daily]: nothing when the file the loop opens is missing, the
    tuples of its page otherwise. *)
Definition daily_page_of_file (html_parser : string -> Bs4.node) (w : world)
    (file : string) : result (list record) :=
  let year := Py.slice None (Some 4) file in
  let day := Py.slice (Some 5) (Some 7) file in
  match read_daily (year +:+ "-" +:+ day +:+ ".html") w with
  | None => Ok []
  | Some text => parse_daily_page year day (html_parser text)
  end.

(** The same for one file of the yearly directory. *)
Definition yearly_page_of_file (html_parser : string -> Bs4.node) (w : world)
    (file : string) : result (list record) :=
  let year := Py.slice None (Some 4) file in
  match read_yearly (year +:+ "-stats.html") w with
  | None => Ok []
  | Some text => parse_yearly_page year (html_parser text)
  end.

(** The part of the world a run without download has no business
    with: the page directories, the clock and the log of requests. *)
Definition offline (w : world)
    : option (gmap string string) * option (gmap string string) * nat * list string :=
  (daily_data w, yearly_data w, clock w, requested w).

(** A printable ASCII character: a code point from 32 to 126. *)
Definition printable (c : ascii) : bool :=
  let n := N_of_ascii c in ((32 <=? n) && (n <=? 126))%N.

(** The reading of a bytes literal, the way back from [Py.str_bytes];
    the script has no such function, the statement that [str] of a body
    loses nothing is proved through it. *)
Definition hexval (c : ascii) : option N :=
  let n := N_of_ascii c in
  if ((48 <=? n) && (n <=? 57))%N then Some (n - 48)%N
  else if ((97 <=? n) && (n <=? 102))%N then Some (n - 87)%N
  else None.

Fixpoint unescape (quote : ascii) (s : string) : option (list byte) :=
  match s with
  | EmptyString => None
  | String c s1 =>
      if Ascii.eqb c quote then
        match s1 with
        | EmptyString => Some []
        | _ => None
        end
      else if Ascii.eqb c "\" then
        match s1 with
        | EmptyString => None
        | String e s2 =>
            if Ascii.eqb e "x" then
              match s2 with
              | String h (String l s3) =>
                  match hexval h, hexval l with
                  | Some a, Some b =>
                      option_map (cons (byte_of_ascii (ascii_of_N (16 * a + b))))
                                 (unescape quote s3)
                  | _, _ => None
                  end
              | _ => None
              end
            else
              let c' :=
                if Ascii.eqb e "t" then ascii_of_N 9
                else if Ascii.eqb e "n" then ascii_of_N 10
                else if Ascii.eqb e "r" then ascii_of_N 13
                else e in
              option_map (cons (byte_of_ascii c')) (unescape quote s2)
        end
      else option_map (cons (byte_of_ascii c)) (unescape quote s1)
  end.

Definition literal_bytes (s : string) : option (list byte) :=
  match s with
  | String prefix (String quote body) =>
      if Ascii.eqb prefix "b" then unescape quote body else None
  | _ => None
  end.

(** A yearly page with two anchors, and a daily page with a stray
    [div]. *)
Definition stats_page_2 : Bs4.node :=
  stats_page [stats_anchor "25 " " 50" " 10"; stats_anchor " 24 " "7" "3 "].

Definition stray_div_page : Bs4.node :=
  leaderboard_page [leaderboard_entry "  1)" "Dec 01  00:12:34"; Bs4.Tag "div" [] []].

(** * The definitions on sample inputs *)

Example strip_ex : Py.strip "  101.  " = "101.".
Proof. reflexivity. Qed.

Example slice_ex1 : Py.slice None (Some (-1)) "101." = "101".
Proof. reflexivity. Qed.

Example slice_ex2 : Py.slice (Some (-8)) None "Dec 01  00:12:34" = "00:12:34".
Proof. reflexivity. Qed.

Example slice_ex3 : Py.slice (Some 5) (Some 7) "2015-01.html" = "01".
Proof. reflexivity. Qed.

Example split_ex : Py.split " 25   100  7 ***" = ["25"; "100"; "7"; "***"].
Proof. reflexivity. Qed.

Example zfill_ex : Py.zfill 2 (Py.str 7) = "07" /\ Py.zfill 2 (Py.str 25) = "25" /\ Py.str (-3) = "-3".
Proof. repeat split; reflexivity. Qed.

Example str_bytes_ex : Py.str_bytes [x68; x69; x0a; x5c; xe9] = "b'hi\n\\\xe9'".
Proof. reflexivity. Qed.

Example str_bytes_quote :
  Py.str_bytes [x27; x68] = String "b" (String Py.dquote ("'h" +:+ String Py.dquote "")).
Proof. reflexivity. Qed.

Example parse_daily_page_ex :
  parse_daily_page "2015" "01"
    (leaderboard_page [leaderboard_entry "  1)" "Dec 01  00:12:34";
                       leaderboard_entry "  2)" "Dec 01  00:13:00"])
  = Ok [[PyStr "2015"; PyStr "01"; PyStr "second"; PyStr "1"; PyStr "00:12:34"];
        [PyStr "2015"; PyStr "01"; PyStr "second"; PyStr "2"; PyStr "00:13:00"]].
Proof. reflexivity. Qed.

Example parse_yearly_page_ex :
  parse_yearly_page "2015" (stats_page [stats_anchor "25 " " 50" " 10"; stats_anchor " 24 " "7" "3 "])
  = Ok [[PyStr "2015"; PyStr "25"; PyStr "50"; PyStr "10"];
        [PyStr "2015"; PyStr "24"; PyStr "7"; PyStr "3"]].
Proof. reflexivity. Qed.

Example make_yearly_frame_ex :
  Pd.make_yearly_frame Pd.numeric_of_literal
    [[PyInt 2015; PyInt 1; PyStr "50"; PyStr "10"]]
  = Ok [Pd.YearlyRow (Some 2015) (Some 1) "first" (Some 60);
        Pd.YearlyRow (Some 2015) (Some 1) "second" (Some 50)].
Proof. reflexivity. Qed.

Example make_yearly_frame_short :
  Pd.make_yearly_frame Pd.numeric_of_literal [[PyStr "2015"; PyStr "25"; PyStr "50"]]
  = Raise ValueError.
Proof. reflexivity. Qed.

Example make_yearly_frame_ragged :
  Pd.make_yearly_frame Pd.numeric_of_literal
    [[PyStr "2015"; PyStr "25"; PyStr "50"; PyStr "10"]; [PyStr "2015"; PyStr "24"]]
  = Ok [Pd.YearlyRow (Some 2015) (Some 25) "first" (Some 60);
        Pd.YearlyRow (Some 2015) (Some 24) "first" None;
        Pd.YearlyRow (Some 2015) (Some 25) "second" (Some 50);
        Pd.YearlyRow (Some 2015) (Some 24) "second" None].
Proof. reflexivity. Qed.

Example make_daily_frame_ex :
  Pd.make_daily_frame Pd.numeric_of_literal Pd.timedelta_of_hms
    [[PyStr "2015"; PyStr "01"; PyStr "second"; PyStr "1"; PyStr "00:12:34"]]
  = Ok [Pd.DailyRow (Some 2015) (Some 1) (Some (PyStr "second")) (Some 1) (Some 754000000000)].
Proof. reflexivity. Qed.

Example download_daily_ex :
  let '(r, w) := download_daily sample_network 2015 2015 empty_world in
  r = Ok tt
  /\ daily_data w = Some {[ "2015-01.html" := "b'<p>hi</p>\n'" ]}
  /\ clock w = 25%nat
  /\ length (requested w) = 25%nat
  /\ firstn 4 (stdout w) = ["Requesting all information for year 2015 to 2015";
                            "Downloaded year 2015, day 1";
                            "Failed download/read of 2015-2 with: Connection refused";
                            "Response for request 2015-3 is 404"].
Proof. vm_compute. repeat split; reflexivity. Qed.

(** * Slices *)

Section SliceFacts.

Lemma str_app_cons c s t : String c s +:+ t = String c (s +:+ t).
Proof. reflexivity. Qed.

Lemma str_length_drop n s : String.length (Py.drop n s) = (String.length s - n)%nat.
Proof.
  revert s; induction n as [|n IH]; intros [|c s]; simpl; auto with lia.
Qed.



Lemma str_take_app s t : Py.take (String.length s) (s +:+ t) = s.
Proof.
  induction s as [|c s IH]; [now destruct t|].
  rewrite str_app_cons. simpl. now rewrite IH.
Qed.

Lemma str_length_app s t :
  String.length (s +:+ t) = (String.length s + String.length t)%nat.
Proof. induction s as [|c s IH]; [reflexivity|]. rewrite str_app_cons. simpl. now rewrite IH. Qed.



Lemma slice_drop_last_empty : Py.slice None (Some (-1)) "" = "".
Proof. reflexivity. Qed.


End SliceFacts.

(** * Comprehensions *)

Section RmapFacts.

Context {A B : Type} (f : A -> result B).

Lemma rmap_cons_Ok a l bs :
  rmap f (a :: l) = Ok bs ->
  exists b bs', f a = Ok b /\ rmap f l = Ok bs' /\ bs = b :: bs'.
Proof.
  simpl. destruct (f a) as [b|e]; simpl; [|discriminate].
  destruct (rmap f l) as [bs'|e]; simpl; [|discriminate].
  intros [= <-]. eauto.
Qed.

Lemma rmap_Ok_lookup l bs :
  rmap f l = Ok bs ->
  length bs = length l
  /\ forall i a, l !! i = Some a -> exists b, bs !! i = Some b /\ f a = Ok b.
Proof.
  revert bs; induction l as [|a l IH]; intros bs H.
  - injection H as <-. split; [reflexivity | intros i a' Hi; discriminate].
  - apply rmap_cons_Ok in H as (b & bs' & Hb & Hbs & ->).
    destruct (IH _ Hbs) as [Hlen Hnth]. split; [simpl; congruence|].
    intros [|i] a' Hi; simpl in *.
    + injection Hi as <-. eauto.
    + eauto.
Qed.

Lemma rmap_total l :
  (forall a, a ∈ l -> exists b, f a = Ok b) -> exists bs, rmap f l = Ok bs.
Proof.
  induction l as [|a l IH]; intros H; [now exists []|].
  destruct (H a) as [b Hb]; [left|].
  destruct IH as [bs Hbs]; [intros a' Ha'; apply H; now right|].
  exists (b :: bs). simpl. now rewrite Hb, Hbs.
Qed.

Lemma rmap_Permutation l l' bs :
  l ≡ₚ l' -> rmap f l = Ok bs -> exists bs', rmap f l' = Ok bs' /\ bs ≡ₚ bs'.
Proof.
  intros Hp; revert bs; induction Hp as [|x l l' Hp IH|x y l|l l' l'' _ IH1 _ IH2];
    intros bs H.
  - eauto.
  - apply rmap_cons_Ok in H as (b & bs0 & Hb & Hbs & ->).
    destruct (IH _ Hbs) as (bs' & H' & Hperm).
    exists (b :: bs'). simpl. rewrite Hb, H'. split; [reflexivity | now constructor].
  - apply rmap_cons_Ok in H as (b & bs0 & Hb & Hbs & ->).
    apply rmap_cons_Ok in Hbs as (b' & bs1 & Hb' & Hbs & ->).
    exists (b' :: b :: bs1). simpl. rewrite Hb', Hb, Hbs. split; [reflexivity | constructor].
  - destruct (IH1 _ H) as (bs' & H' & Hperm).
    destruct (IH2 _ H') as (bs'' & H'' & Hperm').
    exists bs''. split; [assumption | now transitivity bs'].
Qed.

End RmapFacts.

Lemma enumerate_lookup {A} (l : list A) i j a :
  enumerate l !! i = Some (j, a) <-> j = i /\ l !! i = Some a.
Proof.
  unfold enumerate. rewrite lookup_zip_with_Some. split.
  - intros (x & y & [= <- <-] & Hx & Hy).
    apply lookup_seq in Hx as [-> _]. auto.
  - intros [-> Ha]. exists i, a. split; [reflexivity|]. split; [|assumption].
    apply lookup_seq. split; [reflexivity|]. now apply lookup_lt_Some in Ha.
Qed.

Lemma length_enumerate {A} (l : list A) : length (enumerate l) = length l.
Proof. unfold enumerate. rewrite length_zip_with, length_seq. lia. Qed.

(** * Extraction *)


Lemma find_string_strip_inv cls entry s :
  find_string_strip cls entry = Ok s ->
  exists raw, entry_field cls entry = Some raw /\ s = Py.strip raw.
Proof.
  unfold entry_field, find_string_strip.
  destruct (Bs4.find_class cls entry) as [t|]; [|discriminate]. simpl.
  destruct (Bs4.string_ t) as [raw|]; [|discriminate]. simpl.
  intros [= <-]. eauto.
Qed.


Lemma daily_entry_inv year day i entry r :
  daily_entry year day (i, entry) = Ok r ->
  exists p t, entry_field "leaderboard-position" entry = Some p
    /\ entry_field "leaderboard-time" entry = Some t.
Proof.
  unfold daily_entry.
  destruct (find_string_strip "leaderboard-position" entry) as [p|] eqn:Hp; [|discriminate].
  destruct (find_string_strip "leaderboard-time" entry) as [t|] eqn:Ht; [|discriminate].
  intros _.
  apply find_string_strip_inv in Hp as (p' & Hp & _).
  apply find_string_strip_inv in Ht as (t' & Ht & _). eauto.
Qed.



Example parse_daily_page_101_tiers :
  exists records,
    parse_daily_page "2015" "01" page_101 = Ok records
    /\ length records = 101%nat
    /\ records !! 99%nat = Some [PyStr "2015"; PyStr "01"; PyStr "second"; PyStr "100"; PyStr "00:12:34"]
    /\ records !! 100%nat = Some [PyStr "2015"; PyStr "01"; PyStr "first"; PyStr "101"; PyStr "00:12:34"].
Proof. eexists. split; [vm_compute; reflexivity|]. repeat split. Qed.




Example rank_per_spec_ex :
  rank_per_spec "101." = "101" /\ rank_per_spec "  7)" = "  7" /\ rank_per_spec "101" = "101".
Proof. repeat split; reflexivity. Qed.


(** * The yearly frame *)

Section YearlyFrameFacts.

Variable numeric_of_str : string -> result Pd.cell.

Lemma width_le records r : r ∈ records -> (length r <= Pd.width records)%nat.
Proof.
  induction records as [|r' rs IH]; intros Hin; [now apply elem_of_nil in Hin|].
  apply elem_of_cons in Hin as [-> | Hin]; simpl; [lia|].
  specialize (IH Hin). lia.
Qed.

Lemma width_Permutation records records' :
  records ≡ₚ records' -> Pd.width records = Pd.width records'.
Proof. induction 1; simpl; lia. Qed.

Lemma DataFrame_Ok records ncols rows :
  Pd.DataFrame records ncols = Ok rows <->
  (records = [] \/ Pd.width records = ncols) /\ rows = map (Pd.pad ncols) records.
Proof.
  unfold Pd.DataFrame. destruct records as [|r rs].
  - split; [intros [= <-]; auto | intros [_ ->]; reflexivity].
  - destruct (Nat.eqb_spec (Pd.width (r :: rs)) ncols) as [Hw | Hw].
    + split; [intros [= <-]; auto | intros [_ ->]; reflexivity].
    + split; [discriminate | intros [[? | ?] _]; [discriminate | contradiction]].
Qed.

Lemma pad_lookups (r : record) :
  (length r <= 4)%nat -> Pd.pad 4 r = [r !! 0%nat; r !! 1%nat; r !! 2%nat; r !! 3%nat].
Proof.
  destruct r as [|a [|b [|c [|d [|e r]]]]]; simpl; intros H; (reflexivity || lia).
Qed.

Lemma numeric_wide_inv y d s f w :
  Pd.numeric_wide numeric_of_str [y; d; s; f] = Ok w ->
  Pd.to_numeric numeric_of_str y = Ok (Pd.w_year w)
  /\ Pd.to_numeric numeric_of_str d = Ok (Pd.w_day w)
  /\ Pd.to_numeric numeric_of_str s = Ok (Pd.w_second w)
  /\ Pd.to_numeric numeric_of_str f = Ok (Pd.w_first w).
Proof.
  unfold Pd.numeric_wide.
  destruct (Pd.to_numeric numeric_of_str y); [|discriminate].
  destruct (Pd.to_numeric numeric_of_str d); [|discriminate].
  destruct (Pd.to_numeric numeric_of_str s); [|discriminate].
  destruct (Pd.to_numeric numeric_of_str f); [|discriminate].
  simpl. intros [= <-]. auto.
Qed.

Lemma melt_Permutation ws ws' : ws ≡ₚ ws' -> Pd.melt ws ≡ₚ Pd.melt ws'.
Proof. intros H. unfold Pd.melt. now rewrite H. Qed.

Lemma make_yearly_frame_Ok records frame :
  Pd.make_yearly_frame numeric_of_str records = Ok frame <->
  exists ws,
    (records = [] \/ Pd.width records = 4%nat)
    /\ rmap (Pd.numeric_wide numeric_of_str) (map (Pd.pad 4) records) = Ok ws
    /\ frame = Pd.melt (map (fun w => Pd.Wide (Pd.w_year w) (Pd.w_day w) (Pd.w_second w)
                                        (Pd.add (Pd.w_second w) (Pd.w_first w))) ws).
Proof.
  unfold Pd.make_yearly_frame. split.
  - destruct (Pd.DataFrame records 4) as [rows|] eqn:Hdf; [|discriminate].
    apply DataFrame_Ok in Hdf as [Hw ->]. simpl.
    destruct (rmap _ _) as [ws|]; [|discriminate]. simpl.
    intros [= <-]. eauto.
  - intros (ws & Hw & Hws & ->).
    assert (Hdf : Pd.DataFrame records 4 = Ok (map (Pd.pad 4) records))
      by (apply DataFrame_Ok; auto).
    rewrite Hdf. simpl. rewrite Hws. reflexivity.
Qed.

Lemma make_yearly_frame_Permutation_Ok records records' frame :
  records ≡ₚ records' ->
  Pd.make_yearly_frame numeric_of_str records = Ok frame ->
  exists frame',
    Pd.make_yearly_frame numeric_of_str records' = Ok frame' /\ frame ≡ₚ frame'.
Proof.
  intros Hp Hframe. apply make_yearly_frame_Ok in Hframe as (ws & Hw & Hws & ->).
  destruct (rmap_Permutation (Pd.numeric_wide numeric_of_str)
              (map (Pd.pad 4) records) (map (Pd.pad 4) records') ws) as (ws' & Hws' & Hpw);
    [now rewrite Hp | assumption |].
  eexists. split.
  - apply make_yearly_frame_Ok. exists ws'. split; [|split; [exact Hws' | reflexivity]].
    destruct Hw as [-> | Hw].
    + left. now apply Permutation_nil_l in Hp.
    + right. now rewrite <- (width_Permutation _ _ Hp).
  - apply melt_Permutation. now rewrite Hpw.
Qed.

End YearlyFrameFacts.




(** C7.  The yearly frame of a permuted tuple sequence has the same
    rows, up to their order, as the frame of the sequence; and when
    the frame of the sequence is refused, so is the frame of the
    permuted one. *)
Theorem make_yearly_frame_Permutation numeric_of_str records records' :
  records ≡ₚ records' ->
  (forall frame,
     Pd.make_yearly_frame numeric_of_str records = Ok frame ->
     exists frame',
       Pd.make_yearly_frame numeric_of_str records' = Ok frame' /\ frame ≡ₚ frame')
  /\ (forall e,
       Pd.make_yearly_frame numeric_of_str records = Raise e ->
       exists e', Pd.make_yearly_frame numeric_of_str records' = Raise e').
Proof.
  intros Hp. split.
  - intros frame. now apply make_yearly_frame_Permutation_Ok.
  - intros e He.
    destruct (Pd.make_yearly_frame numeric_of_str records') as [frame'|e'] eqn:H'; [|eauto].
    symmetry in Hp.
    destruct (make_yearly_frame_Permutation_Ok _ _ _ _ Hp H') as (frame & Hframe & _).
    congruence.
Qed.

Lemma make_yearly_frame_Permutation_2015 :
  [[PyInt 2015; PyInt 1; PyStr "50"; PyStr "10"]; [PyInt 2015; PyInt 2; PyStr "7"; PyStr "3"]]
  ≡ₚ [[PyInt 2015; PyInt 2; PyStr "7"; PyStr "3"]; [PyInt 2015; PyInt 1; PyStr "50"; PyStr "10"]]
  /\ exists frame',
       Pd.make_yearly_frame Pd.numeric_of_literal
         [[PyInt 2015; PyInt 2; PyStr "7"; PyStr "3"]; [PyInt 2015; PyInt 1; PyStr "50"; PyStr "10"]]
       = Ok frame'
       /\ [Pd.YearlyRow (Some 2015) (Some 1) "first" (Some 60);
           Pd.YearlyRow (Some 2015) (Some 2) "first" (Some 10);
           Pd.YearlyRow (Some 2015) (Some 1) "second" (Some 50);
           Pd.YearlyRow (Some 2015) (Some 2) "second" (Some 7)] ≡ₚ frame'.
Proof.
  assert (Hp : [[PyInt 2015; PyInt 1; PyStr "50"; PyStr "10"];
                [PyInt 2015; PyInt 2; PyStr "7"; PyStr "3"]]
               ≡ₚ [[PyInt 2015; PyInt 2; PyStr "7"; PyStr "3"];
                   [PyInt 2015; PyInt 1; PyStr "50"; PyStr "10"]])
    by apply Permutation_swap.
  split; [exact Hp|].
  apply (proj1 (make_yearly_frame_Permutation Pd.numeric_of_literal _ _ Hp)).
  reflexivity.
Defined.



(** * File names *)

Section NameFacts.

Lemma str_app_inj s s' t t' :
  String.length s = String.length s' -> s +:+ t = s' +:+ t' -> s = s' /\ t = t'.
Proof.
  revert s'; induction s as [|c s IH]; intros [|c' s'] Hlen H; try discriminate.
  - auto.
  - rewrite !str_app_cons in H. injection H as -> H. injection Hlen as Hlen.
    destruct (IH _ Hlen H) as [-> ->]. auto.
Qed.

Lemma to_int_nonnil z : Z.to_int z <> Decimal.Pos Decimal.Nil /\ Z.to_int z <> Decimal.Neg Decimal.Nil.
Proof.
  destruct z as [|p|p]; simpl; split; try discriminate;
    intros [= H]; now apply DecimalPos.Unsigned.to_uint_nonnil in H.
Qed.

(** [str] on integers is one to one. *)
Lemma str_inj y y' : Py.str y = Py.str y' -> y = y'.
Proof.
  unfold Py.str. intros H.
  destruct (to_int_nonnil y) as [Hp Hn], (to_int_nonnil y') as [Hp' Hn'].
  assert (Hi : Some (Z.to_int y) = Some (Z.to_int y')).
  { rewrite <- (NilZero.isi _ Hp Hn), <- (NilZero.isi _ Hp' Hn'). now rewrite H. }
  injection Hi as Hi.
  rewrite <- (DecimalZ.of_to y), <- (DecimalZ.of_to y'). now rewrite Hi.
Qed.

Lemma day_cases d : 1 <= d <= 25 -> In d (map Z.of_nat (seq 1 25)).
Proof.
  intros H. apply in_map_iff. exists (Z.to_nat d). split; [lia|]. apply in_seq. lia.
Qed.

(** The day part of a file name has two characters and reads back as
    the day. *)
Lemma zfill_day d :
  1 <= d <= 25 ->
  String.length (Py.zfill 2 (Py.str d)) = 2%nat
  /\ Pd.int_literal (Py.zfill 2 (Py.str d)) = Some d.
Proof.
  intros H. apply day_cases in H. simpl in H.
  repeat (destruct H as [<- | H]; [split; reflexivity|]). contradiction.
Qed.

Lemma daily_name_inj year day year' day' :
  1 <= day <= 25 -> 1 <= day' <= 25 ->
  daily_name year day = daily_name year' day' -> year = year' /\ day = day'.
Proof.
  intros Hd Hd' H. unfold daily_name in H.
  destruct (zfill_day _ Hd) as [Hlen Hlit], (zfill_day _ Hd') as [Hlen' Hlit'].
  assert (Hl := f_equal String.length H).
  rewrite !str_length_app, Hlen, Hlen' in Hl.
  apply str_app_inj in H as [Hy H]; [|lia].
  apply (str_app_inj "-" "-") in H as [_ H]; [|reflexivity].
  apply str_app_inj in H as [Hz _]; [|congruence].
  split; [now apply str_inj|]. rewrite Hz in Hlit. congruence.
Qed.

Lemma yearly_name_inj year year' : yearly_name year = yearly_name year' -> year = year'.
Proof.
  unfold yearly_name. intros H.
  assert (Hl := f_equal String.length H). rewrite !str_length_app in Hl.
  apply str_app_inj in H as [Hy _]; [|lia]. now apply str_inj.
Qed.

End NameFacts.

(** * Loops *)

Lemma bind_Ok {A B} (m : M A) (k : A -> M B) w a w' :
  m w = (Ok a, w') -> (m ≫= k) w = k a w'.
Proof. intros H. unfold mbind, M_bind. now rewrite H. Qed.

Section LoopFacts.

Context {A : Type}.

(** A loop whose body never raises runs to its end. *)
Lemma for_Ok (body : A -> M unit) l :
  (forall x w, (body x w).1 = Ok tt) ->
  forall w, for_ l body w = (Ok tt, fold_left (fun w x => (body x w).2) l w).
Proof.
  intros Hbody. induction l as [|x l IH]; intros w; [reflexivity|].
  simpl. unfold mbind, M_bind. specialize (Hbody x w).
  destruct (body x w) as [[[]|e] w1]; simpl in *; [apply IH | discriminate].
Qed.

Lemma fold_left_pointwise {W} (f g : W -> A -> W) l w :
  (forall w x, f w x = g w x) -> fold_left f l w = fold_left g l w.
Proof.
  intros H. revert w; induction l as [|x l IH]; intros w; [reflexivity|].
  simpl. now rewrite H, IH.
Qed.

Lemma fold_left_preserve {W} (step : W -> A -> W) (P : W -> Prop) l w :
  P w -> (forall w x, x ∈ l -> P w -> P (step w x)) -> P (fold_left step l w).
Proof.
  revert w; induction l as [|x l IH]; intros w Hw Hstep; [assumption|].
  simpl. apply IH.
  - apply Hstep; [left | assumption].
  - intros w' x' Hx'. apply Hstep. now right.
Qed.

Lemma fold_left_establish {W} (step : W -> A -> W) (Q : W -> Prop) x l w :
  x ∈ l -> (forall w, Q (step w x)) -> (forall w y, Q w -> Q (step w y)) ->
  Q (fold_left step l w).
Proof.
  intros Hx Hest Hkeep. revert w; induction l as [|y l IH]; intros w;
    [now apply elem_of_nil in Hx|].
  simpl. apply elem_of_cons in Hx as [<- | Hx].
  - apply fold_left_preserve; [apply Hest | intros; now apply Hkeep].
  - now apply IH.
Qed.

Lemma fold_left_collect {W B} (step : W -> A -> W) (log : W -> list B) (out : A -> list B) l w :
  (forall w x, log (step w x) = log w ++ out x) ->
  log (fold_left step l w) = log w ++ flat_map out l.
Proof.
  intros Hstep. revert w; induction l as [|x l IH]; intros w; simpl.
  - now rewrite app_nil_r.
  - now rewrite IH, Hstep, <- app_assoc.
Qed.

End LoopFacts.

Lemma elem_of_range a b x : x ∈ range a b <-> a <= x < b.
Proof.
  unfold range. rewrite list_elem_of_fmap. split.
  - intros (i & -> & Hi). apply elem_of_seq in Hi. lia.
  - intros H. exists (Z.to_nat (x - a)). split; [lia|]. apply elem_of_seq. lia.
Qed.

(** * Downloads *)

Section DownloadFacts.

Variable network : string -> reply.

(** One turn of the inner loop of [download_daily]: it returns, it
    logs one request, one line and one second, and it touches no file
    but the one of its own day, which it writes on status 200 only. *)
Lemma download_daily_one_spec year day w :
  exists dd line,
    download_daily_one network year day w
    = (Ok tt, World dd (yearly_data w) (daily_parquet w) (yearly_parquet w)
                    (stdout w ++ [line]) (clock w + 1) (requested w ++ [daily_url year day]))
    /\ (forall status_code content,
          network (daily_url year day) = Response status_code content ->
          status_code <> codes_ok ->
          dd = daily_data w
          /\ line = "Response for request " +:+ Py.str year +:+ "-" +:+ Py.str day
                    +:+ " is " +:+ Py.str status_code)
    /\ (forall msg,
          network (daily_url year day) = Failure msg ->
          dd = daily_data w
          /\ line = "Failed download/read of " +:+ Py.str year +:+ "-" +:+ Py.str day
                    +:+ " with: " +:+ msg)
    /\ (forall content d,
          network (daily_url year day) = Response codes_ok content ->
          daily_data w = Some d ->
          dd = Some (<[daily_name year day := Py.str_bytes content]> d))
    /\ (forall name, name <> daily_name year day ->
          dd ≫= (fun d => d !! name) = daily_data w ≫= (fun d => d !! name))
    /\ (is_Some (daily_data w) -> is_Some dd).
Proof.
  unfold download_daily_one, try_except, requests_get, write_daily, print, sleep,
    mbind, M_bind, set_daily_data.
  destruct (network (daily_url year day)) as [sc c|msg] eqn:Hnet; simpl.
  - destruct (Z.eqb_spec sc codes_ok) as [-> | Hsc]; simpl.
    + destruct (daily_data w) as [d|] eqn:Hdd; simpl.
      * do 2 eexists. split; [reflexivity|].
        split; [intros ? ? [= <- _] ?; contradiction|]. split; [discriminate|].
        split; [intros ? ? [= <-] [= <-]; reflexivity|].
        split; [intros name Hne; simpl; now rewrite lookup_insert_ne | eauto].
      * do 2 eexists. split; [reflexivity|].
        split; [intros ? ? [= <- _] ?; contradiction|]. split; [discriminate|].
        split; [discriminate|]. split; [reflexivity | intros [? [=]]].
    + do 2 eexists. split; [reflexivity|].
      split; [intros ? ? [= <- _] _; auto|]. split; [discriminate|].
      split; [intros ? ? [= ? _]; contradiction|]. split; [reflexivity | auto].
  - do 2 eexists. split; [reflexivity|].
    split; [discriminate|]. split; [intros ? [= <-]; auto|].
    split; [discriminate|]. split; [reflexivity | auto].
Qed.

Lemma download_daily_one_Ok year day w : (download_daily_one network year day w).1 = Ok tt.
Proof. destruct (download_daily_one_spec year day w) as (dd & line & -> & _). reflexivity. Qed.

Lemma download_daily_year_Ok year w :
  (for_ (range 1 (25 + 1)) (fun day => download_daily_one network year day) w).1 = Ok tt.
Proof. rewrite for_Ok; [reflexivity | intros; apply download_daily_one_Ok]. Qed.

(** The world after [download_daily], as two nested folds. *)
Lemma download_daily_eq first_year last_year w :
  download_daily network first_year last_year w
  = (Ok tt,
     fold_left
       (fun w year =>
          fold_left (fun w day => (download_daily_one network year day w).2)
                    (range 1 (25 + 1)) w)
       (range first_year (last_year + 1))
       (ensure_daily_data
          (print ("Requesting all information for year " +:+ Py.str first_year
                  +:+ " to " +:+ Py.str last_year) w).2).2).
Proof.
  unfold download_daily.
  rewrite (bind_Ok (print _) _ w tt _ eq_refl).
  rewrite (bind_Ok ensure_daily_data _ _ tt _ eq_refl).
  rewrite for_Ok by (intros; apply download_daily_year_Ok).
  f_equal. apply fold_left_pointwise. intros w' year.
  rewrite for_Ok by (intros; apply download_daily_one_Ok). reflexivity.
Qed.

(** One turn of the loop of [download_yearly]. *)
Lemma download_yearly_one_spec year w :
  exists yd line,
    download_yearly_one network year w
    = (Ok tt, World (daily_data w) yd (daily_parquet w) (yearly_parquet w)
                    (stdout w ++ [line]) (clock w + 1) (requested w ++ [yearly_url year]))
    /\ (forall status_code content,
          network (yearly_url year) = Response status_code content ->
          status_code <> codes_ok ->
          yd = yearly_data w
          /\ line = "Response for request " +:+ Py.str year +:+ " stats is "
                    +:+ Py.str status_code)
    /\ (forall msg,
          network (yearly_url year) = Failure msg ->
          yd = yearly_data w
          /\ line = "Failed download/read of " +:+ Py.str year +:+ " stats with: " +:+ msg)
    /\ (forall content d,
          network (yearly_url year) = Response codes_ok content ->
          yearly_data w = Some d ->
          yd = Some (<[yearly_name year := Py.str_bytes content]> d))
    /\ (forall name, name <> yearly_name year ->
          yd ≫= (fun d => d !! name) = yearly_data w ≫= (fun d => d !! name))
    /\ (is_Some (yearly_data w) -> is_Some yd).
Proof.
  unfold download_yearly_one, try_except, requests_get, write_yearly, print, sleep,
    mbind, M_bind, set_yearly_data.
  destruct (network (yearly_url year)) as [sc c|msg] eqn:Hnet; simpl.
  - destruct (Z.eqb_spec sc codes_ok) as [-> | Hsc]; simpl.
    + destruct (yearly_data w) as [d|] eqn:Hdd; simpl.
      * do 2 eexists. split; [reflexivity|].
        split; [intros ? ? [= <- _] ?; contradiction|]. split; [discriminate|].
        split; [intros ? ? [= <-] [= <-]; reflexivity|].
        split; [intros name Hne; simpl; now rewrite lookup_insert_ne | eauto].
      * do 2 eexists. split; [reflexivity|].
        split; [intros ? ? [= <- _] ?; contradiction|]. split; [discriminate|].
        split; [discriminate|]. split; [reflexivity | intros [? [=]]].
    + do 2 eexists. split; [reflexivity|].
      split; [intros ? ? [= <- _] _; auto|]. split; [discriminate|].
      split; [intros ? ? [= ? _]; contradiction|]. split; [reflexivity | auto].
  - do 2 eexists. split; [reflexivity|].
    split; [discriminate|]. split; [intros ? [= <-]; auto|].
    split; [discriminate|]. split; [reflexivity | auto].
Qed.

Lemma download_yearly_one_Ok year w : (download_yearly_one network year w).1 = Ok tt.
Proof. destruct (download_yearly_one_spec year w) as (yd & line & -> & _). reflexivity. Qed.

Lemma download_yearly_eq first_year last_year w :
  download_yearly network first_year last_year w
  = (Ok tt,
     fold_left (fun w year => (download_yearly_one network year w).2)
       (range first_year (last_year + 1))
       (print ("Requesting stats information for year " +:+ Py.str first_year
               +:+ " to " +:+ Py.str last_year) (ensure_yearly_data w).2).2).
Proof.
  unfold download_yearly.
  rewrite (bind_Ok ensure_yearly_data _ w tt _ eq_refl).
  rewrite (bind_Ok (print _) _ _ tt _ eq_refl).
  rewrite for_Ok by (intros; apply download_yearly_one_Ok). reflexivity.
Qed.

Lemma download_daily_one_read year day w name :
  name <> daily_name year day \/ failing (network (daily_url year day)) ->
  read_daily name (download_daily_one network year day w).2 = read_daily name w.
Proof.
  destruct (download_daily_one_spec year day w)
    as (dd & line & -> & Hstatus & Hfail & _ & Hother & _).
  unfold read_daily. simpl. intros [Hne | Hf]; [now apply Hother|].
  destruct (network (daily_url year day)) as [sc c|msg]; simpl in Hf.
  - now destruct (Hstatus sc c eq_refl Hf) as [-> _].
  - now destruct (Hfail msg eq_refl) as [-> _].
Qed.

Lemma download_yearly_one_read year w name :
  name <> yearly_name year \/ failing (network (yearly_url year)) ->
  read_yearly name (download_yearly_one network year w).2 = read_yearly name w.
Proof.
  destruct (download_yearly_one_spec year w)
    as (yd & line & -> & Hstatus & Hfail & _ & Hother & _).
  unfold read_yearly. simpl. intros [Hne | Hf]; [now apply Hother|].
  destruct (network (yearly_url year)) as [sc c|msg]; simpl in Hf.
  - now destruct (Hstatus sc c eq_refl Hf) as [-> _].
  - now destruct (Hfail msg eq_refl) as [-> _].
Qed.

Lemma download_daily_one_stdout year day w :
  exists line, stdout (download_daily_one network year day w).2 = stdout w ++ [line].
Proof. destruct (download_daily_one_spec year day w) as (dd & line & -> & _). eauto. Qed.

Lemma download_yearly_one_stdout year w :
  exists line, stdout (download_yearly_one network year w).2 = stdout w ++ [line].
Proof. destruct (download_yearly_one_spec year w) as (yd & line & -> & _). eauto. Qed.

Lemma download_daily_one_requested year day w :
  requested (download_daily_one network year day w).2 = requested w ++ [daily_url year day].
Proof. destruct (download_daily_one_spec year day w) as (dd & line & -> & _). reflexivity. Qed.

Lemma download_yearly_one_requested year w :
  requested (download_yearly_one network year w).2 = requested w ++ [yearly_url year].
Proof. destruct (download_yearly_one_spec year w) as (yd & line & -> & _). reflexivity. Qed.

(** [download_daily] requests every pair of the range once, in order. *)
Lemma download_daily_requested first_year last_year w :
  requested (download_daily network first_year last_year w).2
  = requested w
    ++ flat_map (fun year => flat_map (fun day => [daily_url year day]) (range 1 (25 + 1)))
                (range first_year (last_year + 1)).
Proof.
  rewrite download_daily_eq. cbn [snd].
  rewrite (fold_left_collect _ requested
             (fun year => flat_map (fun day => [daily_url year day]) (range 1 (25 + 1)))).
  - unfold ensure_daily_data, print. simpl. now destruct (daily_data w).
  - intros w' year.
    apply (fold_left_collect _ requested (fun day => [daily_url year day])).
    intros w'' day. apply download_daily_one_requested.
Qed.

Lemma download_yearly_requested first_year last_year w :
  requested (download_yearly network first_year last_year w).2
  = requested w ++ flat_map (fun year => [yearly_url year]) (range first_year (last_year + 1)).
Proof.
  rewrite download_yearly_eq. cbn [snd].
  rewrite (fold_left_collect _ requested (fun year => [yearly_url year])).
  - unfold ensure_yearly_data, print. simpl. now destruct (yearly_data w).
  - intros w' year. apply download_yearly_one_requested.
Qed.

(** A page that the network does not serve with status 200 is not
    written by [download_daily]. *)
Lemma download_daily_read first_year last_year w year day :
  1 <= day <= 25 ->
  failing (network (daily_url year day)) ->
  read_daily (daily_name year day) (download_daily network first_year last_year w).2
  = read_daily (daily_name year day) w.
Proof.
  intros Hday Hf. rewrite download_daily_eq. cbn [snd].
  apply (fold_left_preserve _
           (fun w' => read_daily (daily_name year day) w' = read_daily (daily_name year day) w)).
  - unfold read_daily, ensure_daily_data, print. simpl. now destruct (daily_data w).
  - intros w1 year' _ Hw1.
    apply (fold_left_preserve _
             (fun w' => read_daily (daily_name year day) w'
                        = read_daily (daily_name year day) w)); [assumption|].
    intros w2 day' Hday' Hw2. rewrite <- Hw2.
    apply download_daily_one_read.
    destruct (decide (daily_name year day = daily_name year' day')) as [Heq | Hne];
      [right | now left].
    apply elem_of_range in Hday'.
    apply daily_name_inj in Heq as [<- <-]; [assumption | lia | lia].
Qed.

Lemma download_yearly_read first_year last_year w year :
  failing (network (yearly_url year)) ->
  read_yearly (yearly_name year) (download_yearly network first_year last_year w).2
  = read_yearly (yearly_name year) w.
Proof.
  intros Hf. rewrite download_yearly_eq. cbn [snd].
  apply (fold_left_preserve _
           (fun w' => read_yearly (yearly_name year) w' = read_yearly (yearly_name year) w)).
  - unfold read_yearly, ensure_yearly_data, print.
    destruct (yearly_data w) eqn:Hyd; simpl; rewrite ?Hyd; reflexivity.
  - intros w1 year' _ Hw1. rewrite <- Hw1.
    apply download_yearly_one_read.
    destruct (decide (yearly_name year = yearly_name year')) as [Heq | Hne];
      [right | now left].
    now apply yearly_name_inj in Heq as <-.
Qed.

(** The line that one turn prints stays on standard output. *)
Lemma download_daily_stdout first_year last_year w year day line :
  first_year <= year <= last_year -> 1 <= day <= 25 ->
  (forall w', stdout (download_daily_one network year day w').2 = stdout w' ++ [line]) ->
  line ∈ stdout (download_daily network first_year last_year w).2.
Proof.
  intros Hyear Hday Hline. rewrite download_daily_eq. cbn [snd].
  assert (Hkeep : forall w' year', line ∈ stdout w' ->
    line ∈ stdout (fold_left (fun w day => (download_daily_one network year' day w).2)
                             (range 1 (25 + 1)) w')).
  { intros w' year' Hin.
    apply (fold_left_preserve _ (fun w => line ∈ stdout w)); [assumption|].
    intros w1 day' _ Hw1.
    destruct (download_daily_one_stdout year' day' w1) as [line' ->].
    apply elem_of_app. now left. }
  apply (fold_left_establish _ (fun w => line ∈ stdout w) year).
  - apply elem_of_range. lia.
  - intros w'. apply (fold_left_establish _ (fun w => line ∈ stdout w) day).
    + apply elem_of_range. lia.
    + intros w1. rewrite Hline. apply elem_of_app. right. now left.
    + intros w1 day' Hw1.
      destruct (download_daily_one_stdout year day' w1) as [line' ->].
      apply elem_of_app. now left.
  - intros w' year'. apply Hkeep.
Qed.

Lemma download_yearly_stdout first_year last_year w year line :
  first_year <= year <= last_year ->
  (forall w', stdout (download_yearly_one network year w').2 = stdout w' ++ [line]) ->
  line ∈ stdout (download_yearly network first_year last_year w).2.
Proof.
  intros Hyear Hline. rewrite download_yearly_eq. cbn [snd].
  apply (fold_left_establish _ (fun w => line ∈ stdout w) year).
  - apply elem_of_range. lia.
  - intros w1. rewrite Hline. apply elem_of_app. right. now left.
  - intros w1 year' Hw1.
    destruct (download_yearly_one_stdout year' w1) as [line' ->].
    apply elem_of_app. now left.
Qed.

End DownloadFacts.

Lemma download_daily_one_failure_line network year day w :
  failing (network (daily_url year day)) ->
  stdout (download_daily_one network year day w).2
  = stdout w ++ [daily_failure_line year day (network (daily_url year day))].
Proof.
  destruct (download_daily_one_spec network year day w)
    as (dd & line & -> & Hstatus & Hfail & _).
  simpl. intros Hf. destruct (network (daily_url year day)) as [sc c|msg]; simpl in *.
  - now destruct (Hstatus sc c eq_refl Hf) as [_ ->].
  - now destruct (Hfail msg eq_refl) as [_ ->].
Qed.

Lemma download_yearly_one_failure_line network year w :
  failing (network (yearly_url year)) ->
  stdout (download_yearly_one network year w).2
  = stdout w ++ [yearly_failure_line year (network (yearly_url year))].
Proof.
  destruct (download_yearly_one_spec network year w)
    as (yd & line & -> & Hstatus & Hfail & _).
  simpl. intros Hf. destruct (network (yearly_url year)) as [sc c|msg]; simpl in *.
  - now destruct (Hstatus sc c eq_refl Hf) as [_ ->].
  - now destruct (Hfail msg eq_refl) as [_ ->].
Qed.

(** C4.  Both download loops return without an exception and request
    every year (and day) of the range, in order, whatever the replies;
    and where the reply for a year (and day) of the range is a status
    other than OK or an exception of the request, the file of that key
    is as it was before the call and the failure is on standard
    output. *)
Theorem download_skips_failures network first_year last_year w :
  (exists w',
     download_daily network first_year last_year w = (Ok tt, w')
     /\ requested w'
        = requested w
          ++ flat_map (fun year => flat_map (fun day => [daily_url year day]) (range 1 (25 + 1)))
                      (range first_year (last_year + 1))
     /\ forall year day,
          first_year <= year <= last_year -> 1 <= day <= 25 ->
          failing (network (daily_url year day)) ->
          read_daily (daily_name year day) w' = read_daily (daily_name year day) w
          /\ daily_failure_line year day (network (daily_url year day)) ∈ stdout w')
  /\ (exists w',
       download_yearly network first_year last_year w = (Ok tt, w')
       /\ requested w'
          = requested w
            ++ flat_map (fun year => [yearly_url year]) (range first_year (last_year + 1))
       /\ forall year,
            first_year <= year <= last_year ->
            failing (network (yearly_url year)) ->
            read_yearly (yearly_name year) w' = read_yearly (yearly_name year) w
            /\ yearly_failure_line year (network (yearly_url year)) ∈ stdout w').
Proof.
  split.
  - exists (download_daily network first_year last_year w).2.
    split; [now rewrite download_daily_eq|].
    split; [apply download_daily_requested|].
    intros year day Hyear Hday Hf. split.
    + exact (download_daily_read network first_year last_year w year day Hday Hf).
    + apply (download_daily_stdout network first_year last_year w year day);
        [assumption | assumption|].
      intros w'. now apply download_daily_one_failure_line.
  - exists (download_yearly network first_year last_year w).2.
    split; [now rewrite download_yearly_eq|].
    split; [apply download_yearly_requested|].
    intros year Hyear Hf. split.
    + exact (download_yearly_read network first_year last_year w year Hf).
    + apply (download_yearly_stdout network first_year last_year w year); [assumption|].
      intros w'. now apply download_yearly_one_failure_line.
Qed.

Lemma download_skips_failures_2015 :
  failing (sample_network (daily_url 2015 2))
  /\ failing (sample_network (yearly_url 2016))
  /\ (exists w',
        download_daily sample_network 2015 2016 empty_world = (Ok tt, w')
        /\ read_daily (daily_name 2015 2) w' = read_daily (daily_name 2015 2) empty_world
        /\ "Failed download/read of 2015-2 with: Connection refused" ∈ stdout w')
  /\ (exists w',
        download_yearly sample_network 2015 2016 empty_world = (Ok tt, w')
        /\ read_yearly (yearly_name 2016) w' = read_yearly (yearly_name 2016) empty_world
        /\ "Failed download/read of 2016 stats with: Connection refused" ∈ stdout w').
Proof.
  assert (Hd : failing (sample_network (daily_url 2015 2))) by exact I.
  assert (Hy : failing (sample_network (yearly_url 2016))) by exact I.
  split; [exact Hd|]. split; [exact Hy|].
  destruct (download_skips_failures sample_network 2015 2016 empty_world)
    as [(w1 & Hw1 & _ & Hdaily) (w2 & Hw2 & _ & Hyearly)].
  split.
  - exists w1. split; [exact Hw1|]. apply (Hdaily 2015 2); [lia | lia | exact Hd].
  - exists w2. split; [exact Hw2|]. apply (Hyearly 2016); [lia | exact Hy].
Defined.

(** * What a download leaves in the page directories *)

Lemma length_repr_byte quote b : (1 <= String.length (Py.repr_byte quote b))%nat.
Proof.
  unfold Py.repr_byte.
  repeat match goal with |- context [if ?c then _ else _] => destruct c end; simpl; lia.
Qed.

Lemma length_string_of_list_byte b : String.length (string_of_list_byte b) = length b.
Proof.
  unfold string_of_list_byte.
  induction b as [|x b IH]; simpl; [reflexivity | now f_equal].
Qed.

Lemma length_str_bytes content :
  (length content + 3 <= String.length (Py.str_bytes content))%nat.
Proof.
  unfold Py.str_bytes.
  generalize (if Py.has_byte Py.squote content && negb (Py.has_byte Py.dquote content)
              then Py.dquote else Py.squote).
  intros quote. cbn [String.length].
  assert (H : (length content + 1
               <= String.length (fold_right (fun x acc => Py.repr_byte quote x +:+ acc)
                                            (String quote "") content))%nat).
  { induction content as [|x b IH]; simpl; [lia|].
    rewrite str_length_app. pose proof (length_repr_byte quote x). lia. }
  lia.
Qed.

(** The text [str] makes of a body is never the body. *)
Lemma str_bytes_not_verbatim content : Py.str_bytes content <> string_of_list_byte content.
Proof.
  intros H. apply (f_equal String.length) in H.
  rewrite length_string_of_list_byte in H. pose proof (length_str_bytes content). lia.
Qed.

(** On status OK the file of the key holds [str] of the body. *)
Lemma download_daily_one_writes network year day w d content :
  network (daily_url year day) = Response codes_ok content ->
  daily_data w = Some d ->
  read_daily (daily_name year day) (download_daily_one network year day w).2
  = Some (Py.str_bytes content).
Proof.
  intros Hnet Hd.
  destruct (download_daily_one_spec network year day w) as (dd & line & -> & _ & _ & Hok & _).
  unfold read_daily. simpl. rewrite (Hok _ _ Hnet Hd). simpl. apply lookup_insert_eq.
Qed.

Lemma download_yearly_one_writes network year w d content :
  network (yearly_url year) = Response codes_ok content ->
  yearly_data w = Some d ->
  read_yearly (yearly_name year) (download_yearly_one network year w).2
  = Some (Py.str_bytes content).
Proof.
  intros Hnet Hd.
  destruct (download_yearly_one_spec network year w) as (yd & line & -> & _ & _ & Hok & _).
  unfold read_yearly. simpl. rewrite (Hok _ _ Hnet Hd). simpl. apply lookup_insert_eq.
Qed.

(** C3, on the code.  For a response of status OK whose body is the
    ten bytes of [sample_body], both downloads store the file under the
    key of the claim, but the text stored is the Python literal of the
    body (prefix, quotes and escapes), not the body. *)
Theorem download_writes_literal_of_body :
  sample_network (daily_url 2015 1) = Response codes_ok sample_body
  /\ sample_network (yearly_url 2015) = Response codes_ok sample_body
  /\ daily_name 2015 1 = "2015-01.html"
  /\ yearly_name 2015 = "2015-stats.html"
  /\ string_of_list_byte sample_body = String.append "<p>hi</p>" (String (ascii_of_N 10) "")
  /\ read_daily "2015-01.html" (download_daily sample_network 2015 2015 empty_world).2
     = Some "b'<p>hi</p>\n'"
  /\ read_yearly "2015-stats.html" (download_yearly sample_network 2015 2015 empty_world).2
     = Some "b'<p>hi</p>\n'"
  /\ "b'<p>hi</p>\n'" <> string_of_list_byte sample_body.
Proof.
  repeat split; try (vm_compute; reflexivity). vm_compute. discriminate.
Qed.

(** * What the script keeps *)

Section Keeps.

Context {X : Type} (f : world -> X).

Lemma keeps_ret {A} (a : A) : keeps f (mret a).
Proof. intros w. reflexivity. Qed.

Lemma keeps_raise {A} e : keeps f (@raise A e).
Proof. intros w. reflexivity. Qed.

Lemma keeps_lift {A} (r : result A) : keeps f (lift r).
Proof. intros w. reflexivity. Qed.

Lemma keeps_bind {A B} (m : M A) (k : A -> M B) :
  keeps f m -> (forall a, keeps f (k a)) -> keeps f (m ≫= k).
Proof.
  intros Hm Hk w. unfold mbind, M_bind. specialize (Hm w).
  destruct (m w) as [[a|e] w1]; simpl in *; [now rewrite Hk | assumption].
Qed.

Lemma keeps_try_except {A} (body : M A) handler :
  keeps f body -> (forall e, keeps f (handler e)) -> keeps f (try_except body handler).
Proof.
  intros Hm Hk w. unfold try_except. specialize (Hm w).
  destruct (body w) as [[a|e] w1]; simpl in *; [assumption | now rewrite Hk].
Qed.

Lemma keeps_for {A} (l : list A) body :
  (forall x, keeps f (body x)) -> keeps f (for_ l body).
Proof.
  intros Hbody. induction l as [|x l IH]; [apply keeps_ret|].
  simpl. apply keeps_bind; [apply Hbody | intros _; apply IH].
Qed.

Lemma keeps_parse_files body files records :
  (forall file records, keeps f (body file records)) ->
  keeps f (parse_files body files records).
Proof.
  intros Hbody. revert records; induction files as [|file files IH]; intros records;
    [apply keeps_ret|].
  simpl. apply keeps_bind; [apply Hbody | intros records'; apply IH].
Qed.

End Keeps.

Lemma keeps_parquet_print line : keeps parquets (print line).
Proof. intros w. reflexivity. Qed.

Lemma keeps_parquet_download_daily network first_year last_year :
  keeps parquets (download_daily network first_year last_year).
Proof.
  unfold download_daily.
  apply keeps_bind; [apply keeps_parquet_print | intros _].
  apply keeps_bind; [intros w; unfold ensure_daily_data; simpl; now destruct (daily_data w)
                    | intros _].
  apply keeps_for. intros year. apply keeps_for. intros day w.
  destruct (download_daily_one_spec network year day w) as (dd & line & -> & _). reflexivity.
Qed.

Lemma keeps_parquet_download_yearly network first_year last_year :
  keeps parquets (download_yearly network first_year last_year).
Proof.
  unfold download_yearly.
  apply keeps_bind; [intros w; unfold ensure_yearly_data; simpl; now destruct (yearly_data w)
                    | intros _].
  apply keeps_bind; [apply keeps_parquet_print | intros _].
  apply keeps_for. intros year w.
  destruct (download_yearly_one_spec network year w) as (yd & line & -> & _). reflexivity.
Qed.

Lemma keeps_parquet_parse_daily_file html_parser file records :
  keeps parquets (parse_daily_file html_parser file records).
Proof.
  intros w. unfold parse_daily_file. destruct (read_daily _ w).
  - refine (keeps_bind parquets _ _ _ _ w); [apply keeps_lift | intros new; apply keeps_ret].
  - refine (keeps_bind parquets _ _ _ _ w);
      [apply keeps_parquet_print | intros _; apply keeps_ret].
Qed.

Lemma keeps_parquet_parse_yearly_file html_parser file records :
  keeps parquets (parse_yearly_file html_parser file records).
Proof.
  intros w. unfold parse_yearly_file. destruct (read_yearly _ w).
  - refine (keeps_bind parquets _ _ _ _ w); [apply keeps_lift | intros new; apply keeps_ret].
  - refine (keeps_bind parquets _ _ _ _ w);
      [apply keeps_parquet_print | intros _; apply keeps_ret].
Qed.

Lemma keeps_parquet_parse_daily html_parser : keeps parquets (parse_daily html_parser).
Proof.
  intros w. unfold parse_daily.
  refine (keeps_bind parquets _ _ _ _ w).
  - unfold listdir. destruct (daily_data w); [apply keeps_ret | apply keeps_raise].
  - intros files. apply keeps_parse_files. apply keeps_parquet_parse_daily_file.
Qed.

Lemma keeps_parquet_parse_yearly html_parser : keeps parquets (parse_yearly html_parser).
Proof.
  intros w. unfold parse_yearly.
  refine (keeps_bind parquets _ _ _ _ w).
  - unfold listdir. destruct (yearly_data w); [apply keeps_ret | apply keeps_raise].
  - intros files. apply keeps_parse_files. apply keeps_parquet_parse_yearly_file.
Qed.

(** * The parquet files *)

Section ParquetFacts.

Variable network : string -> reply.
Variable html_parser : string -> Bs4.node.
Variable numeric_of_str : string -> result Pd.cell.
Variable timedelta_of : pyval -> result Pd.cell.

(** [make_daily] writes [daily.parquet] when it returns, with the frame
    it returns, and leaves both parquet files alone when it raises. *)
Lemma make_daily_parquet download first_year last_year w :
  match make_daily network html_parser numeric_of_str timedelta_of
          download first_year last_year w with
  | (Ok frame, w') => daily_parquet w' = Some frame /\ yearly_parquet w' = yearly_parquet w
  | (Raise _, w') => parquets w' = parquets w
  end.
Proof.
  unfold make_daily.
  set (m1 := if download then download_daily network first_year last_year else mret tt).
  assert (H1 : keeps parquets m1)
    by (destruct download; [apply keeps_parquet_download_daily | apply keeps_ret]).
  specialize (H1 w). clearbody m1. unfold mbind, M_bind.
  destruct (m1 w) as [[[]|e] w1]; simpl in H1; [|assumption].
  pose proof (H2 := keeps_parquet_parse_daily html_parser w1).
  destruct (parse_daily html_parser w1) as [[records|e] w2]; simpl in H2; [|congruence].
  unfold lift.
  destruct (Pd.make_daily_frame numeric_of_str timedelta_of records) as [frame|e];
    simpl; [|congruence].
  split; [reflexivity|].
  assert (H : yearly_parquet w2 = yearly_parquet w)
    by (rewrite H1 in H2; unfold parquets in H2; congruence).
  exact H.
Qed.

Lemma make_yearly_parquet download first_year last_year w :
  match make_yearly network html_parser numeric_of_str download first_year last_year w with
  | (Ok frame, w') => yearly_parquet w' = Some frame /\ daily_parquet w' = daily_parquet w
  | (Raise _, w') => parquets w' = parquets w
  end.
Proof.
  unfold make_yearly.
  set (m1 := if download then download_yearly network first_year last_year else mret tt).
  assert (H1 : keeps parquets m1)
    by (destruct download; [apply keeps_parquet_download_yearly | apply keeps_ret]).
  specialize (H1 w). clearbody m1. unfold mbind, M_bind.
  destruct (m1 w) as [[[]|e] w1]; simpl in H1; [|assumption].
  pose proof (H2 := keeps_parquet_parse_yearly html_parser w1).
  destruct (parse_yearly html_parser w1) as [[records|e] w2]; simpl in H2; [|congruence].
  unfold lift.
  destruct (Pd.make_yearly_frame numeric_of_str records) as [frame|e];
    simpl; [|congruence].
  split; [reflexivity|].
  assert (H : daily_parquet w2 = daily_parquet w)
    by (rewrite H1 in H2; unfold parquets in H2; congruence).
  exact H.
Qed.

End ParquetFacts.

(** C8.  [get_daily] and [get_yearly] take neither the network nor the
    parser and leave the world as it is (no request, no line printed);
    after a build that returned a frame they return that frame; while
    the parquet file of a dataset is absent they raise
    FileNotFoundError; and the file of a dataset appears only through a
    build of that dataset that returns. *)
Theorem get_reads_back network html_parser numeric_of_str timedelta_of :
  (forall download first_year last_year w frame w',
     make_daily network html_parser numeric_of_str timedelta_of
       download first_year last_year w = (Ok frame, w') ->
     get_daily w' = (Ok frame, w'))
  /\ (forall download first_year last_year w frame w',
       make_yearly network html_parser numeric_of_str
         download first_year last_year w = (Ok frame, w') ->
       get_yearly w' = (Ok frame, w'))
  /\ (forall w, daily_parquet w = None ->
       get_daily w = (Raise (FileNotFoundError "daily.parquet"), w))
  /\ (forall w, yearly_parquet w = None ->
       get_yearly w = (Raise (FileNotFoundError "yearly.parquet"), w))
  /\ (forall w, (get_daily w).2 = w /\ (get_yearly w).2 = w)
  /\ (forall download first_year last_year w e w',
       make_daily network html_parser numeric_of_str timedelta_of
         download first_year last_year w = (Raise e, w') ->
       daily_parquet w' = daily_parquet w)
  /\ (forall download first_year last_year w e w',
       make_yearly network html_parser numeric_of_str
         download first_year last_year w = (Raise e, w') ->
       yearly_parquet w' = yearly_parquet w)
  /\ (forall download first_year last_year w,
       daily_parquet
         (make_yearly network html_parser numeric_of_str download first_year last_year w).2
       = daily_parquet w)
  /\ (forall download first_year last_year w,
       yearly_parquet
         (make_daily network html_parser numeric_of_str timedelta_of
            download first_year last_year w).2
       = yearly_parquet w).
Proof.
  repeat split.
  - intros download first_year last_year w frame w' H.
    pose proof (Hp := make_daily_parquet network html_parser numeric_of_str timedelta_of
                        download first_year last_year w).
    rewrite H in Hp. destruct Hp as [Hp _]. unfold get_daily. now rewrite Hp.
  - intros download first_year last_year w frame w' H.
    pose proof (Hp := make_yearly_parquet network html_parser numeric_of_str
                        download first_year last_year w).
    rewrite H in Hp. destruct Hp as [Hp _]. unfold get_yearly. now rewrite Hp.
  - intros w H. unfold get_daily. now rewrite H.
  - intros w H. unfold get_yearly. now rewrite H.
  - unfold get_daily. now destruct (daily_parquet w).
  - unfold get_yearly. now destruct (yearly_parquet w).
  - intros download first_year last_year w e w' H.
    pose proof (Hp := make_daily_parquet network html_parser numeric_of_str timedelta_of
                        download first_year last_year w).
    rewrite H in Hp. unfold parquets in Hp. congruence.
  - intros download first_year last_year w e w' H.
    pose proof (Hp := make_yearly_parquet network html_parser numeric_of_str
                        download first_year last_year w).
    rewrite H in Hp. unfold parquets in Hp. congruence.
  - intros download first_year last_year w.
    pose proof (Hp := make_yearly_parquet network html_parser numeric_of_str
                        download first_year last_year w).
    destruct (make_yearly _ _ _ _ _ _ w) as [[frame|e] w']; simpl.
    + now destruct Hp.
    + unfold parquets in Hp. congruence.
  - intros download first_year last_year w.
    pose proof (Hp := make_daily_parquet network html_parser numeric_of_str timedelta_of
                        download first_year last_year w).
    destruct (make_daily _ _ _ _ _ _ _ w) as [[frame|e] w']; simpl.
    + now destruct Hp.
    + unfold parquets in Hp. congruence.
Qed.

Lemma get_reads_back_sample :
  exists frame w',
    make_daily sample_network sample_parser Pd.numeric_of_literal Pd.timedelta_of_hms
      false 2015 2015 sample_world = (Ok frame, w')
    /\ length frame = 101%nat
    /\ get_daily w' = (Ok frame, w')
    /\ daily_parquet sample_world = None
    /\ get_daily sample_world = (Raise (FileNotFoundError "daily.parquet"), sample_world).
Proof.
  destruct (get_reads_back sample_network sample_parser Pd.numeric_of_literal
              Pd.timedelta_of_hms) as (Hdaily & _ & Hnone & _).
  assert (Hmake : { out | make_daily sample_network sample_parser Pd.numeric_of_literal
                            Pd.timedelta_of_hms false 2015 2015 sample_world
                          = (Ok out.1, out.2) /\ length out.1 = 101%nat }).
  { eexists (_, _). vm_compute. split; reflexivity. }
  destruct Hmake as [[frame w'] [Hmake Hlen]].
  exists frame, w'. split; [exact Hmake|]. split; [exact Hlen|].
  split; [exact (Hdaily _ _ _ _ _ _ Hmake)|].
  split; [reflexivity|]. exact (Hnone sample_world eq_refl).
Defined.

(** * Frames of no tuples *)

(** With no tuples, neither frame construction reads a field or
    raises: each returns the frame of no rows. *)
Lemma make_frames_nil numeric_of_str timedelta_of :
  Pd.make_daily_frame numeric_of_str timedelta_of [] = Ok []
  /\ Pd.make_yearly_frame numeric_of_str [] = Ok [].
Proof. split; reflexivity. Qed.

(** * More on the downloads *)

Lemma fold_left_establish_in {A W} (step : W -> A -> W) (I Q : W -> Prop) x l w :
  x ∈ l -> I w ->
  (forall w y, y ∈ l -> I w -> I (step w y)) ->
  (forall w, I w -> Q (step w x)) ->
  (forall w y, y ∈ l -> I w -> Q w -> Q (step w y)) ->
  Q (fold_left step l w).
Proof.
  intros Hx Hw HI Hest Hkeep.
  assert (Hboth : forall l' w', (forall y, y ∈ l' -> y ∈ l) -> I w' -> Q w' ->
                                Q (fold_left step l' w')).
  { induction l' as [|y l' IH]; intros w' Hsub HIw HQw; [assumption|].
    simpl. apply IH.
    - intros z Hz. apply Hsub. now right.
    - apply HI; [apply Hsub; left | assumption].
    - apply Hkeep; [apply Hsub; left | assumption | assumption]. }
  assert (Hgo : forall l' w', (forall y, y ∈ l' -> y ∈ l) -> x ∈ l' -> I w' ->
                              Q (fold_left step l' w')).
  { induction l' as [|y l' IH]; intros w' Hsub Hin HIw; [now apply elem_of_nil in Hin|].
    simpl. apply elem_of_cons in Hin as [<- | Hin].
    - apply Hboth.
      + intros z Hz. apply Hsub. now right.
      + apply HI; [apply Hsub; left | assumption].
      + now apply Hest.
    - apply IH; [intros z Hz; apply Hsub; now right | assumption|].
      apply HI; [apply Hsub; left | assumption]. }
  now apply Hgo.
Qed.

Lemma fold_left_count {A W} (step : W -> A -> W) (g : W -> nat) (c : nat) l w :
  (forall w x, g (step w x) = (g w + c)%nat) ->
  g (fold_left step l w) = (g w + c * length l)%nat.
Proof.
  intros Hstep. revert w; induction l as [|x l IH]; intros w; simpl; [lia|].
  rewrite IH, Hstep. lia.
Qed.

Lemma length_range a b : length (range a b) = Z.to_nat (b - a).
Proof. unfold range. now rewrite length_map, length_seq. Qed.

Section MoreDownloadFacts.

Variable network : string -> reply.

Lemma download_daily_one_dir year day w :
  is_Some (daily_data w) -> is_Some (daily_data (download_daily_one network year day w).2).
Proof.
  destruct (download_daily_one_spec network year day w) as (dd & line & -> & _ & _ & _ & _ & H).
  exact H.
Qed.

Lemma download_yearly_one_dir year w :
  is_Some (yearly_data w) -> is_Some (yearly_data (download_yearly_one network year w).2).
Proof.
  destruct (download_yearly_one_spec network year w) as (yd & line & -> & _ & _ & _ & _ & H).
  exact H.
Qed.

Lemma download_daily_dir first_year last_year w :
  is_Some (daily_data (download_daily network first_year last_year w).2).
Proof.
  rewrite download_daily_eq. cbn [snd].
  apply (fold_left_preserve _ (fun w => is_Some (daily_data w))).
  - unfold ensure_daily_data, print. simpl. destruct (daily_data w) eqn:H; simpl; rewrite ?H; eauto.
  - intros w1 year _ Hw1.
    apply (fold_left_preserve _ (fun w => is_Some (daily_data w))); [assumption|].
    intros w2 day _. apply download_daily_one_dir.
Qed.

Lemma download_yearly_dir first_year last_year w :
  is_Some (yearly_data (download_yearly network first_year last_year w).2).
Proof.
  rewrite download_yearly_eq. cbn [snd].
  apply (fold_left_preserve _ (fun w => is_Some (yearly_data w))).
  - unfold ensure_yearly_data, print. simpl. destruct (yearly_data w) eqn:H; simpl; rewrite ?H; eauto.
  - intros w1 year _. apply download_yearly_one_dir.
Qed.

Lemma download_daily_one_keep year day year' day' w content :
  1 <= day <= 25 -> 1 <= day' <= 25 ->
  network (daily_url year day) = Response codes_ok content ->
  is_Some (daily_data w) ->
  read_daily (daily_name year day) w = Some (Py.str_bytes content) ->
  read_daily (daily_name year day) (download_daily_one network year' day' w).2
  = Some (Py.str_bytes content).
Proof.
  intros Hd Hd' Hnet [d Hdir] Hread.
  destruct (decide (daily_name year day = daily_name year' day')) as [Heq | Hne].
  - apply daily_name_inj in Heq as [<- <-]; [|assumption|assumption].
    now apply (download_daily_one_writes network year day w d).
  - rewrite download_daily_one_read; [assumption | now left].
Qed.

Lemma download_yearly_one_keep year year' w content :
  network (yearly_url year) = Response codes_ok content ->
  is_Some (yearly_data w) ->
  read_yearly (yearly_name year) w = Some (Py.str_bytes content) ->
  read_yearly (yearly_name year) (download_yearly_one network year' w).2
  = Some (Py.str_bytes content).
Proof.
  intros Hnet [d Hdir] Hread.
  destruct (decide (yearly_name year = yearly_name year')) as [Heq | Hne].
  - apply yearly_name_inj in Heq as <-.
    now apply (download_yearly_one_writes network year w d).
  - rewrite download_yearly_one_read; [assumption | now left].
Qed.

(** After [download_daily], the file of a pair served with status OK
    holds [str] of the body. *)
Lemma download_daily_written first_year last_year w year day content :
  first_year <= year <= last_year -> 1 <= day <= 25 ->
  network (daily_url year day) = Response codes_ok content ->
  read_daily (daily_name year day) (download_daily network first_year last_year w).2
  = Some (Py.str_bytes content).
Proof.
  intros Hyear Hday Hnet. rewrite download_daily_eq. cbn [snd].
  set (Q := fun w => read_daily (daily_name year day) w = Some (Py.str_bytes content)).
  set (I := fun w => is_Some (daily_data w)).
  assert (Hinner_I : forall w' year', I w' ->
    I (fold_left (fun w day => (download_daily_one network year' day w).2)
                 (range 1 (25 + 1)) w')).
  { intros w' year' Hw'. apply (fold_left_preserve _ I); [assumption|].
    intros w2 day' _. apply download_daily_one_dir. }
  apply (fold_left_establish_in _ I Q year).
  - apply elem_of_range. lia.
  - unfold I, ensure_daily_data, print. simpl.
    destruct (daily_data w) eqn:H; simpl; rewrite ?H; eauto.
  - intros w' year' _. apply Hinner_I.
  - intros w' Hw'. apply (fold_left_establish_in _ I Q day).
    + apply elem_of_range. lia.
    + assumption.
    + intros w2 day' _. apply download_daily_one_dir.
    + intros w2 [d Hd]. now apply (download_daily_one_writes network year day w2 d).
    + intros w2 day' Hday' Hw2 HQ. apply elem_of_range in Hday'.
      apply download_daily_one_keep; (assumption || lia).
  - intros w' year' _ Hw' HQ.
    apply (fold_left_preserve _ (fun w => I w /\ Q w)); [now split|].
    intros w2 day' Hday' [HI2 HQ2]. apply elem_of_range in Hday'. split.
    + now apply download_daily_one_dir.
    + apply download_daily_one_keep; (assumption || lia).
Qed.

Lemma download_yearly_written first_year last_year w year content :
  first_year <= year <= last_year ->
  network (yearly_url year) = Response codes_ok content ->
  read_yearly (yearly_name year) (download_yearly network first_year last_year w).2
  = Some (Py.str_bytes content).
Proof.
  intros Hyear Hnet. rewrite download_yearly_eq. cbn [snd].
  apply (fold_left_establish_in _ (fun w => is_Some (yearly_data w))
           (fun w => read_yearly (yearly_name year) w = Some (Py.str_bytes content)) year).
  - apply elem_of_range. lia.
  - unfold ensure_yearly_data, print. simpl.
    destruct (yearly_data w) eqn:H; simpl; rewrite ?H; eauto.
  - intros w' year' _. apply download_yearly_one_dir.
  - intros w' [d Hd]. now apply (download_yearly_one_writes network year w' d).
  - intros w' year' _ Hw' HQ. now apply download_yearly_one_keep.
Qed.

(** A name that is not the file of a pair served with status OK is as
    it was. *)
Lemma download_daily_untouched first_year last_year w name :
  (forall year day, first_year <= year <= last_year -> 1 <= day <= 25 ->
                    name = daily_name year day -> failing (network (daily_url year day))) ->
  read_daily name (download_daily network first_year last_year w).2 = read_daily name w.
Proof.
  intros Hname. rewrite download_daily_eq. cbn [snd].
  apply (fold_left_preserve _ (fun w' => read_daily name w' = read_daily name w)).
  - unfold read_daily, ensure_daily_data, print. simpl. now destruct (daily_data w).
  - intros w1 year Hyear Hw1. apply elem_of_range in Hyear.
    apply (fold_left_preserve _ (fun w' => read_daily name w' = read_daily name w));
      [assumption|].
    intros w2 day Hday Hw2. apply elem_of_range in Hday. rewrite <- Hw2.
    apply download_daily_one_read.
    destruct (decide (name = daily_name year day)) as [Heq | Hne]; [right | now left].
    apply Hname; [lia | lia | assumption].
Qed.

Lemma download_yearly_untouched first_year last_year w name :
  (forall year, first_year <= year <= last_year ->
                name = yearly_name year -> failing (network (yearly_url year))) ->
  read_yearly name (download_yearly network first_year last_year w).2 = read_yearly name w.
Proof.
  intros Hname. rewrite download_yearly_eq. cbn [snd].
  apply (fold_left_preserve _ (fun w' => read_yearly name w' = read_yearly name w)).
  - unfold read_yearly, ensure_yearly_data, print.
    destruct (yearly_data w) eqn:Hyd; simpl; rewrite ?Hyd; reflexivity.
  - intros w1 year Hyear Hw1. apply elem_of_range in Hyear. rewrite <- Hw1.
    apply download_yearly_one_read.
    destruct (decide (name = yearly_name year)) as [Heq | Hne]; [right | now left].
    apply Hname; [lia | assumption].
Qed.

End MoreDownloadFacts.

Lemma failing_dec r : {failing r} + {~ failing r}.
Proof.
  destruct r as [sc c|msg]; simpl; [|now left].
  destruct (Z.eq_dec sc codes_ok) as [-> | Hne]; [right; intros H; now apply H | now left].
Qed.

Lemma not_failing_Response r :
  ~ failing r -> exists content, r = Response codes_ok content.
Proof.
  destruct r as [sc c|msg]; simpl; intros H; [|now destruct H].
  destruct (Z.eq_dec sc codes_ok) as [-> | Hne]; [eauto | contradiction].
Qed.







Lemma download_daily_one_counts network year day w :
  clock (download_daily_one network year day w).2 = (clock w + 1)%nat
  /\ length (stdout (download_daily_one network year day w).2) = (length (stdout w) + 1)%nat.
Proof.
  destruct (download_daily_one_spec network year day w) as (dd & line & -> & _).
  simpl. rewrite length_app. split; reflexivity.
Qed.

Lemma download_yearly_one_counts network year w :
  clock (download_yearly_one network year w).2 = (clock w + 1)%nat
  /\ length (stdout (download_yearly_one network year w).2) = (length (stdout w) + 1)%nat.
Proof.
  destruct (download_yearly_one_spec network year w) as (yd & line & -> & _).
  simpl. rewrite length_app. split; reflexivity.
Qed.

(** X3.  Whatever the replies, [download_daily] sleeps one second and
    prints one line per request, 25 per year of the range, after one
    opening line; [download_yearly] does so once per year.  A range
    whose last year is before its first costs nothing but the opening
    line. *)
Theorem download_counts network first_year last_year w :
  let years := Z.to_nat (last_year + 1 - first_year) in
  clock (download_daily network first_year last_year w).2 = (clock w + 25 * years)%nat
  /\ length (stdout (download_daily network first_year last_year w).2)
     = (length (stdout w) + 1 + 25 * years)%nat
  /\ clock (download_yearly network first_year last_year w).2 = (clock w + years)%nat
  /\ length (stdout (download_yearly network first_year last_year w).2)
     = (length (stdout w) + 1 + years)%nat.
Proof.
  intros years. rewrite download_daily_eq, download_yearly_eq. cbn [snd].
  assert (Hdays : length (range 1 (25 + 1)) = 25%nat) by reflexivity.
  assert (Hyears : length (range first_year (last_year + 1)) = years)
    by apply length_range.
  split; [|split; [|split]].
  - rewrite (fold_left_count _ clock 25).
    + rewrite Hyears. unfold ensure_daily_data, print. simpl.
      destruct (daily_data w); simpl; lia.
    + intros w1 year. rewrite (fold_left_count _ clock 1); [lia|].
      intros w2 day. apply download_daily_one_counts.
  - rewrite (fold_left_count _ (fun w => length (stdout w)) 25).
    + rewrite Hyears. unfold ensure_daily_data, print. simpl.
      destruct (daily_data w); simpl; rewrite length_app; simpl; lia.
    + intros w1 year. rewrite (fold_left_count _ (fun w => length (stdout w)) 1); [lia|].
      intros w2 day. apply download_daily_one_counts.
  - rewrite (fold_left_count _ clock 1).
    + rewrite Hyears. unfold ensure_yearly_data, print. simpl.
      destruct (yearly_data w); simpl; lia.
    + intros w1 year. apply download_yearly_one_counts.
  - rewrite (fold_left_count _ (fun w => length (stdout w)) 1).
    + rewrite Hyears. unfold ensure_yearly_data, print. simpl.
      destruct (yearly_data w); simpl; rewrite length_app; simpl; lia.
    + intros w1 year. apply download_yearly_one_counts.
Qed.

(** X4.  Downloading the same range again from the same network leaves
    the page directory as the first download left it. *)
Theorem download_again_same_files network first_year last_year w :
  daily_data (download_daily network first_year last_year
                (download_daily network first_year last_year w).2).2
  = daily_data (download_daily network first_year last_year w).2
  /\ yearly_data (download_yearly network first_year last_year
                   (download_yearly network first_year last_year w).2).2
     = yearly_data (download_yearly network first_year last_year w).2.
Proof.
  split.
  - set (w1 := (download_daily network first_year last_year w).2).
    set (w2 := (download_daily network first_year last_year w1).2).
    assert (Hread : forall name, read_daily name w2 = read_daily name w1).
    { intros name.
      set (pairs := flat_map (fun year => map (pair year) (range 1 (25 + 1)))
                             (range first_year (last_year + 1))).
      destruct (List.Exists_dec
                  (fun p : Z * Z => name = daily_name p.1 p.2
                                    /\ ~ failing (network (daily_url p.1 p.2))) pairs)
        as [Hex | Hnex].
      { intros [year day]. cbn [fst snd].
        destruct (string_dec name (daily_name year day)) as [-> | Hne];
          [|right; intros [? _]; contradiction].
        destruct (failing_dec (network (daily_url year day))) as [Hf | Hf];
          [right; intros [_ ?]; contradiction | left; auto]. }
      - apply List.Exists_exists in Hex as ([year day] & Hin & Hname & Hf).
        cbn [fst snd] in Hname, Hf. unfold pairs in Hin.
        apply in_flat_map in Hin as (year' & Hyear & Hin).
        apply in_map_iff in Hin as (day' & [= <- <-] & Hday).
        apply list_elem_of_In, elem_of_range in Hyear.
        apply list_elem_of_In, elem_of_range in Hday.
        apply not_failing_Response in Hf as [content Hnet]. subst name.
        unfold w2, w1.
        rewrite !(download_daily_written network first_year last_year _ year' day' content);
          (reflexivity || assumption || lia).
      - apply download_daily_untouched. intros year day Hyear Hday ->.
        destruct (failing_dec (network (daily_url year day))) as [Hf | Hf]; [assumption|].
        exfalso. apply Hnex. apply List.Exists_exists. exists (year, day). split; [|auto].
        apply in_flat_map. exists year. split.
        + apply list_elem_of_In, elem_of_range. lia.
        + apply in_map, list_elem_of_In, elem_of_range. lia. }
    destruct (download_daily_dir network first_year last_year w) as [d1 Hd1].
    destruct (download_daily_dir network first_year last_year w1) as [d2 Hd2].
    fold w1 in Hd1. fold w2 in Hd2. rewrite Hd1, Hd2. f_equal. apply map_eq. intros name.
    specialize (Hread name). unfold read_daily in Hread. now rewrite Hd1, Hd2 in Hread.
  - set (w1 := (download_yearly network first_year last_year w).2).
    set (w2 := (download_yearly network first_year last_year w1).2).
    assert (Hread : forall name, read_yearly name w2 = read_yearly name w1).
    { intros name.
      destruct (List.Exists_dec
                  (fun year : Z => name = yearly_name year
                                   /\ ~ failing (network (yearly_url year)))
                  (range first_year (last_year + 1)))
        as [Hex | Hnex].
      { intros year.
        destruct (string_dec name (yearly_name year)) as [-> | Hne];
          [|right; intros [? _]; contradiction].
        destruct (failing_dec (network (yearly_url year))) as [Hf | Hf];
          [right; intros [_ ?]; contradiction | left; auto]. }
      - apply List.Exists_exists in Hex as (year & Hyear & Hname & Hf).
        apply list_elem_of_In, elem_of_range in Hyear.
        apply not_failing_Response in Hf as [content Hnet]. subst name.
        unfold w2, w1.
        rewrite !(download_yearly_written network first_year last_year _ year content);
          (reflexivity || assumption || lia).
      - apply download_yearly_untouched. intros year Hyear ->.
        destruct (failing_dec (network (yearly_url year))) as [Hf | Hf]; [assumption|].
        exfalso. apply Hnex. apply List.Exists_exists. exists year. split; [|auto].
        apply list_elem_of_In, elem_of_range. lia. }
    destruct (download_yearly_dir network first_year last_year w) as [d1 Hd1].
    destruct (download_yearly_dir network first_year last_year w1) as [d2 Hd2].
    fold w1 in Hd1. fold w2 in Hd2. rewrite Hd1, Hd2. f_equal. apply map_eq. intros name.
    specialize (Hread name). unfold read_yearly in Hread. now rewrite Hd1, Hd2 in Hread.
Qed.

(** X5.  [download_daily] leaves the yearly directory and both parquet
    files as they were, and [download_yearly] leaves the daily
    directory and both parquet files as they were. *)
Theorem download_keeps_the_rest network first_year last_year :
  keeps (fun w => (yearly_data w, parquets w)) (download_daily network first_year last_year)
  /\ keeps (fun w => (daily_data w, parquets w)) (download_yearly network first_year last_year).
Proof.
  split.
  - unfold download_daily.
    apply keeps_bind; [intros w; reflexivity | intros _].
    apply keeps_bind; [intros w; unfold ensure_daily_data; simpl; now destruct (daily_data w)
                      | intros _].
    apply keeps_for. intros year. apply keeps_for. intros day w.
    destruct (download_daily_one_spec network year day w) as (dd & line & -> & _).
    reflexivity.
  - unfold download_yearly.
    apply keeps_bind; [intros w; unfold ensure_yearly_data; simpl; now destruct (yearly_data w)
                      | intros _].
    apply keeps_bind; [intros w; reflexivity | intros _].
    apply keeps_for. intros year w.
    destruct (download_yearly_one_spec network year w) as (yd & line & -> & _).
    reflexivity.
Qed.

(** X6.  Two different (year, day) pairs with days from 1 to 25 never
    share a daily file, and two different years never share a yearly
    file: no page of a download overwrites another. *)
Theorem file_names_distinct :
  (forall year day year' day',
     1 <= day <= 25 -> 1 <= day' <= 25 ->
     (year, day) <> (year', day') -> daily_name year day <> daily_name year' day')
  /\ (forall year year', year <> year' -> yearly_name year <> yearly_name year').
Proof.
  split.
  - intros year day year' day' Hd Hd' Hne Heq. apply Hne.
    now destruct (daily_name_inj _ _ _ _ Hd Hd' Heq) as [-> ->].
  - intros year year' Hne Heq. now apply Hne, yearly_name_inj.
Qed.

Lemma file_names_distinct_2015 :
  1 <= 1 <= 25 /\ 1 <= 11 <= 25 /\ (2015, 1) <> (201, 11)
  /\ daily_name 2015 1 <> daily_name 201 11
  /\ 2015 <> 2016 /\ yearly_name 2015 <> yearly_name 2016.
Proof.
  assert (H1 : 1 <= 1 <= 25) by lia.
  assert (H2 : 1 <= 11 <= 25) by lia.
  assert (H3 : (2015, 1) <> (201, 11)) by discriminate.
  assert (H4 : 2015 <> 2016) by discriminate.
  destruct file_names_distinct as [Hdaily Hyearly].
  split; [exact H1|]. split; [exact H2|]. split; [exact H3|].
  split; [exact (Hdaily 2015 1 201 11 H1 H2 H3)|].
  split; [exact H4 | exact (Hyearly 2015 2016 H4)].
Defined.

(** * More on extraction *)

Lemma rmap_Raise {A B} (f : A -> result B) l e :
  rmap f l = Raise e -> exists a, a ∈ l /\ f a = Raise e.
Proof.
  induction l as [|a l IH]; [discriminate|]. simpl.
  destruct (f a) as [b|e'] eqn:Ha; simpl.
  - destruct (rmap f l) as [bs|e'']; simpl; [discriminate|].
    intros [= <-]. destruct IH as (a' & Hin & Ha'); [reflexivity|].
    exists a'. split; [now right | assumption].
  - intros [= <-]. exists a. split; [left | assumption].
Qed.

Lemma rmap_Ok_all {A B} (f : A -> result B) l bs a :
  rmap f l = Ok bs -> a ∈ l -> exists b, f a = Ok b.
Proof.
  intros H Hin. apply list_elem_of_lookup in Hin as [i Hi].
  destruct (rmap_Ok_lookup f l bs H) as [_ Hnth].
  destruct (Hnth i a Hi) as (b & _ & Hb). eauto.
Qed.

Lemma find_string_strip_Raise cls entry e :
  find_string_strip cls entry = Raise e -> e = AttributeError /\ entry_field cls entry = None.
Proof.
  unfold find_string_strip, entry_field.
  destruct (Bs4.find_class cls entry) as [t|]; simpl; [|intros [= <-]; auto].
  destruct (Bs4.string_ t); simpl; [discriminate | intros [= <-]; auto].
Qed.

Lemma daily_entry_Raise year day i entry e :
  daily_entry year day (i, entry) = Raise e ->
  e = AttributeError /\ is_entry_block entry = false.
Proof.
  unfold daily_entry, is_entry_block.
  destruct (find_string_strip "leaderboard-position" entry) as [p|e1] eqn:Hp; simpl.
  - destruct (find_string_strip "leaderboard-time" entry) as [t|e2] eqn:Ht; simpl;
      [discriminate|].
    intros [= <-]. apply find_string_strip_Raise in Ht as [-> ->].
    split; [reflexivity | now destruct (entry_field "leaderboard-position" entry)].
  - intros [= <-]. apply find_string_strip_Raise in Hp as [-> ->]. auto.
Qed.

Lemma daily_entry_not_block year day i entry :
  is_entry_block entry = false -> daily_entry year day (i, entry) = Raise AttributeError.
Proof.
  intros Hb. destruct (daily_entry year day (i, entry)) as [r|e] eqn:H.
  - apply daily_entry_inv in H as (p & t & Hp & Ht).
    unfold is_entry_block in Hb. rewrite Hp, Ht in Hb. discriminate.
  - now apply daily_entry_Raise in H as [-> _].
Qed.

(** X7.  Extraction of a daily page raises exactly when the page has
    no [main] element or some [div] below [main] lacks a position or a
    time field with one string; the exception is AttributeError, one
    such [div] loses the tuples of the whole page, and a [main] with
    no [div] gives no tuple. *)
Theorem parse_daily_page_raises year day page :
  (forall e, parse_daily_page year day page = Raise e -> e = AttributeError)
  /\ ((exists e, parse_daily_page year day page = Raise e) <->
      Bs4.find "main" page = None
      \/ exists main entry,
           Bs4.find "main" page = Some main
           /\ entry ∈ Bs4.find_all "div" main
           /\ is_entry_block entry = false)
  /\ (forall main, Bs4.find "main" page = Some main -> Bs4.find_all "div" main = [] ->
                   parse_daily_page year day page = Ok []).
Proof.
  unfold parse_daily_page.
  destruct (Bs4.find "main" page) as [main|] eqn:Hmain; simpl.
  - split; [|split].
    + intros e H. apply rmap_Raise in H as ([i entry] & _ & H).
      now apply daily_entry_Raise in H as [-> _].
    + split.
      * intros [e H]. right. apply rmap_Raise in H as ([i entry] & Hin & H).
        apply daily_entry_Raise in H as [_ Hb].
        apply list_elem_of_lookup in Hin as [j Hj]. apply enumerate_lookup in Hj as [_ Hj].
        exists main, entry. split; [reflexivity|]. split; [|assumption].
        apply list_elem_of_lookup. eauto.
      * intros [H | (main' & entry & [= <-] & Hin & Hb)]; [discriminate|].
        destruct (rmap (daily_entry year day) (enumerate (Bs4.find_all "div" main)))
          as [records|e] eqn:Hr; [|eauto].
        apply list_elem_of_lookup in Hin as [i Hi].
        destruct (rmap_Ok_all _ _ _ (i, entry) Hr) as [r Hentry].
        { apply list_elem_of_lookup. exists i. now apply enumerate_lookup. }
        rewrite (daily_entry_not_block _ _ _ _ Hb) in Hentry. discriminate.
    + intros main' [= <-] ->. reflexivity.
  - split; [|split].
    + now intros e [= <-].
    + split; [auto | eauto].
    + discriminate.
Qed.

Lemma split_aux_tokens s cur :
  Forall (fun c => Py.isspace c = false) cur -> Forall token (Py.split_aux cur s).
Proof.
  assert (Hflush : forall cur rest,
    Forall (fun c => Py.isspace c = false) cur -> Forall token rest ->
    Forall token match cur with
                 | [] => rest
                 | _ => string_of_list_ascii (rev cur) :: rest
                 end).
  { intros [|c cur'] rest Hcur Hrest; [assumption|].
    constructor; [|assumption]. split.
    - intros H. apply (f_equal list_ascii_of_string) in H.
      rewrite list_ascii_of_string_of_list_ascii in H. simpl in H.
      now apply app_eq_nil in H as [_ [=]].
    - rewrite list_ascii_of_string_of_list_ascii. now apply Forall_rev. }
  revert cur; induction s as [|c s IH]; intros cur Hcur; simpl.
  - apply Hflush; [assumption | constructor].
  - destruct (Py.isspace c) eqn:Hc.
    + apply Hflush; [assumption | apply IH; constructor].
    + apply IH. now constructor.
Qed.

(** X8.  Extraction of a yearly page raises AttributeError when the
    page has no [main] or the [main] has no [pre], and otherwise
    returns one tuple per anchor below the [pre], in document order;
    each tuple is the year followed by at most three fields, and every
    field is a token: not empty and free of white space. *)
Theorem parse_yearly_page_cases year page :
  match Bs4.find "main" page ≫= Bs4.find "pre" with
  | None => parse_yearly_page year page = Raise AttributeError
  | Some pre =>
      exists records,
        parse_yearly_page year page = Ok records
        /\ length records = length (Bs4.find_all "a" pre)
        /\ forall i r, records !! i = Some r ->
             exists anchor fields,
               Bs4.find_all "a" pre !! i = Some anchor
               /\ r = PyStr year :: map PyStr fields
               /\ fields = take 3 (Py.split (Bs4.getText anchor))
               /\ (length fields <= 3)%nat
               /\ Forall token fields
  end.
Proof.
  unfold parse_yearly_page.
  destruct (Bs4.find "main" page) as [main|]; simpl; [|reflexivity].
  destruct (Bs4.find "pre" main) as [pre|]; simpl; [|reflexivity].
  eexists. split; [reflexivity|].
  split; [now rewrite length_map, length_enumerate|].
  intros i r Hr. rewrite list_lookup_fmap in Hr.
  destruct (enumerate (Bs4.find_all "a" pre) !! i) as [[j anchor]|] eqn:Hi; [|discriminate].
  injection Hr as <-. apply enumerate_lookup in Hi as [-> Hi].
  exists anchor, (take 3 (Py.split (Bs4.getText anchor))).
  split; [assumption|]. split; [reflexivity|]. split; [reflexivity|].
  split; [rewrite length_take; lia|].
  apply Forall_take. apply split_aux_tokens. constructor.
Qed.

(** * The parse loops *)

Lemma rmap_ext {A B} (f g : A -> result B) l :
  (forall a, f a = g a) -> rmap f l = rmap g l.
Proof. intros H. induction l as [|a l IH]; simpl; [reflexivity | now rewrite H, IH]. Qed.

Section ParseFacts.

Variable html_parser : string -> Bs4.node.

Lemma daily_page_of_file_ext w w' file :
  daily_data w' = daily_data w ->
  daily_page_of_file html_parser w' file = daily_page_of_file html_parser w file.
Proof. intros H. unfold daily_page_of_file, read_daily. now rewrite H. Qed.

Lemma yearly_page_of_file_ext w w' file :
  yearly_data w' = yearly_data w ->
  yearly_page_of_file html_parser w' file = yearly_page_of_file html_parser w file.
Proof. intros H. unfold yearly_page_of_file, read_yearly. now rewrite H. Qed.

Lemma parse_daily_file_step file records w :
  match daily_page_of_file html_parser w file with
  | Ok new =>
      exists w', parse_daily_file html_parser file records w = (Ok (records ++ new), w')
                 /\ daily_data w' = daily_data w
  | Raise e => parse_daily_file html_parser file records w = (Raise e, w)
  end.
Proof.
  unfold daily_page_of_file, parse_daily_file.
  destruct (read_daily _ w) as [text|].
  - unfold mbind, M_bind, lift.
    destruct (parse_daily_page _ _ (html_parser text)) as [new|e]; [|reflexivity].
    exists w. split; reflexivity.
  - eexists. rewrite app_nil_r. split; reflexivity.
Qed.

Lemma parse_yearly_file_step file records w :
  match yearly_page_of_file html_parser w file with
  | Ok new =>
      exists w', parse_yearly_file html_parser file records w = (Ok (records ++ new), w')
                 /\ yearly_data w' = yearly_data w
  | Raise e => parse_yearly_file html_parser file records w = (Raise e, w)
  end.
Proof.
  unfold yearly_page_of_file, parse_yearly_file.
  destruct (read_yearly _ w) as [text|].
  - unfold mbind, M_bind, lift.
    destruct (parse_yearly_page _ (html_parser text)) as [new|e]; [|reflexivity].
    exists w. split; reflexivity.
  - eexists. rewrite app_nil_r. split; reflexivity.
Qed.

(** The loop of [parse_daily], with its accumulator and its
    [continue], is a comprehension over the files. *)
Lemma parse_files_daily files records w :
  (parse_files (parse_daily_file html_parser) files records w).1
  = (pages ← rmap (daily_page_of_file html_parser w) files; Ok (records ++ concat pages)).
Proof.
  revert records w; induction files as [|file files IH]; intros records w.
  - simpl. now rewrite app_nil_r.
  - cbn [parse_files rmap].
    pose proof (Hstep := parse_daily_file_step file records w).
    destruct (daily_page_of_file html_parser w file) as [new|e].
    + destruct Hstep as (w' & Hstep & Hdir).
      rewrite (bind_Ok _ _ _ _ _ Hstep), IH.
      rewrite (rmap_ext _ (daily_page_of_file html_parser w))
        by (intros a; now apply daily_page_of_file_ext).
      cbn [mbind result_bind].
      destruct (rmap _ files) as [pages|e]; [|reflexivity].
      simpl. now rewrite app_assoc.
    + unfold mbind at 1, M_bind. now rewrite Hstep.
Qed.

Lemma parse_files_yearly files records w :
  (parse_files (parse_yearly_file html_parser) files records w).1
  = (pages ← rmap (yearly_page_of_file html_parser w) files; Ok (records ++ concat pages)).
Proof.
  revert records w; induction files as [|file files IH]; intros records w.
  - simpl. now rewrite app_nil_r.
  - cbn [parse_files rmap].
    pose proof (Hstep := parse_yearly_file_step file records w).
    destruct (yearly_page_of_file html_parser w file) as [new|e].
    + destruct Hstep as (w' & Hstep & Hdir).
      rewrite (bind_Ok _ _ _ _ _ Hstep), IH.
      rewrite (rmap_ext _ (yearly_page_of_file html_parser w))
        by (intros a; now apply yearly_page_of_file_ext).
      cbn [mbind result_bind].
      destruct (rmap _ files) as [pages|e]; [|reflexivity].
      simpl. now rewrite app_assoc.
    + unfold mbind at 1, M_bind. now rewrite Hstep.
Qed.

End ParseFacts.

(** X9.  [parse_daily] and [parse_yearly] raise FileNotFoundError when
    their directory does not exist; otherwise their records are the
    tuples of the pages of the listed files, joined in listing order,
    where a file the loop cannot open adds nothing, and the first page
    whose extraction raises makes the whole call raise that exception. *)
Theorem parse_is_comprehension html_parser w :
  (parse_daily html_parser w).1
  = match daily_data w with
    | None => Raise (FileNotFoundError "./daily_data/")
    | Some d =>
        pages ← rmap (daily_page_of_file html_parser w) (map_to_list d).*1;
        Ok (concat pages)
    end
  /\ (parse_yearly html_parser w).1
     = match yearly_data w with
       | None => Raise (FileNotFoundError "./yearly_data/")
       | Some d =>
           pages ← rmap (yearly_page_of_file html_parser w) (map_to_list d).*1;
           Ok (concat pages)
       end.
Proof.
  split.
  - unfold parse_daily, listdir. destruct (daily_data w) as [d|]; [|reflexivity].
    rewrite (bind_Ok (mret _) _ w _ w eq_refl). now rewrite parse_files_daily.
  - unfold parse_yearly, listdir. destruct (yearly_data w) as [d|]; [|reflexivity].
    rewrite (bind_Ok (mret _) _ w _ w eq_refl). now rewrite parse_files_yearly.
Qed.

(** X10.  Parsing, a build without download, and the two loads
    request nothing, sleep no second and leave both page directories
    as they are. *)
Theorem offline_runs_keep_pages network html_parser numeric_of_str timedelta_of :
  keeps offline (parse_daily html_parser)
  /\ keeps offline (parse_yearly html_parser)
  /\ (forall first_year last_year,
        keeps offline (make_daily network html_parser numeric_of_str timedelta_of
                         false first_year last_year))
  /\ (forall first_year last_year,
        keeps offline (make_yearly network html_parser numeric_of_str
                         false first_year last_year))
  /\ keeps offline get_daily
  /\ keeps offline get_yearly.
Proof.
  assert (Hprint : forall line, keeps offline (print line)) by (intros line w; reflexivity).
  assert (Hd : keeps offline (parse_daily html_parser)).
  { intros w. unfold parse_daily. refine (keeps_bind offline _ _ _ _ w).
    - unfold listdir. destruct (daily_data w); [apply keeps_ret | apply keeps_raise].
    - intros files. apply keeps_parse_files. intros file records w'.
      unfold parse_daily_file. destruct (read_daily _ w').
      + refine (keeps_bind offline _ _ _ _ w'); [apply keeps_lift | intros; apply keeps_ret].
      + refine (keeps_bind offline _ _ _ _ w'); [apply Hprint | intros; apply keeps_ret]. }
  assert (Hy : keeps offline (parse_yearly html_parser)).
  { intros w. unfold parse_yearly. refine (keeps_bind offline _ _ _ _ w).
    - unfold listdir. destruct (yearly_data w); [apply keeps_ret | apply keeps_raise].
    - intros files. apply keeps_parse_files. intros file records w'.
      unfold parse_yearly_file. destruct (read_yearly _ w').
      + refine (keeps_bind offline _ _ _ _ w'); [apply keeps_lift | intros; apply keeps_ret].
      + refine (keeps_bind offline _ _ _ _ w'); [apply Hprint | intros; apply keeps_ret]. }
  split; [exact Hd|]. split; [exact Hy|]. split; [|split; [|split]].
  - intros first_year last_year. unfold make_daily.
    apply keeps_bind; [apply keeps_ret | intros _].
    apply keeps_bind; [exact Hd | intros records].
    apply keeps_bind; [apply keeps_lift | intros frame].
    apply keeps_bind; [intros w; reflexivity | intros _; apply keeps_ret].
  - intros first_year last_year. unfold make_yearly.
    apply keeps_bind; [apply keeps_ret | intros _].
    apply keeps_bind; [exact Hy | intros records].
    apply keeps_bind; [apply keeps_lift | intros frame].
    apply keeps_bind; [intros w; reflexivity | intros _; apply keeps_ret].
  - intros w. unfold get_daily. now destruct (daily_parquet w).
  - intros w. unfold get_yearly. now destruct (yearly_parquet w).
Qed.

(** * File names and slices *)

Lemma str_drop_app s t : Py.drop (String.length s) (s +:+ t) = t.
Proof. induction s as [|c s IH]; [now destruct t|]. rewrite str_app_cons. simpl. apply IH. Qed.

Lemma str_length_take n s : String.length (Py.take n s) = Nat.min n (String.length s).
Proof. revert s; induction n as [|n IH]; intros [|c s]; simpl; auto. Qed.

Lemma slice_prefix s t :
  Py.slice None (Some (Z.of_nat (String.length s))) (s +:+ t) = s.
Proof.
  unfold Py.slice, Py.clamp. rewrite str_length_app.
  destruct (Z.ltb_spec (Z.of_nat (String.length s)) 0) as [H | H]; [lia|].
  replace (Z.to_nat (Z.min _ _ - 0)) with (String.length s) by lia.
  change (Z.to_nat 0) with O. cbn [Py.drop]. apply str_take_app.
Qed.

Lemma slice_middle a b t :
  Py.slice (Some (Z.of_nat (String.length a)))
           (Some (Z.of_nat (String.length a + String.length b))) (a +:+ b +:+ t) = b.
Proof.
  unfold Py.slice, Py.clamp. rewrite !str_length_app.
  destruct (Z.ltb_spec (Z.of_nat (String.length a)) 0) as [H | H]; [lia|].
  destruct (Z.ltb_spec (Z.of_nat (String.length a + String.length b)) 0) as [H' | H'];
    [lia|].
  replace (Z.to_nat (Z.min (Z.of_nat (String.length a)) _)) with (String.length a) by lia.
  replace (Z.to_nat (_ - _)) with (String.length b) by lia.
  rewrite str_drop_app. apply str_take_app.
Qed.

Lemma length_slice lo hi s :
  0 <= lo <= hi ->
  String.length (Py.slice (Some lo) (Some hi) s)
  = (Nat.min (Z.to_nat hi) (String.length s) - Nat.min (Z.to_nat lo) (String.length s))%nat.
Proof.
  intros H. unfold Py.slice, Py.clamp.
  destruct (Z.ltb_spec lo 0), (Z.ltb_spec hi 0); try lia.
  rewrite str_length_take, str_length_drop. lia.
Qed.

Lemma length_slice_to hi s :
  0 <= hi ->
  String.length (Py.slice None (Some hi) s) = Nat.min (Z.to_nat hi) (String.length s).
Proof.
  intros H. unfold Py.slice, Py.clamp.
  destruct (Z.ltb_spec hi 0); try lia.
  rewrite str_length_take. change (Z.to_nat 0) with O. cbn [Py.drop]. lia.
Qed.

Lemma str_four_digits year : 1000 <= year <= 9999 -> String.length (Py.str year) = 4%nat.
Proof.
  intros H.
  assert (Hall : forallb (fun y => Nat.eqb (String.length (Py.str y)) 4) (range 1000 10000)
                 = true) by (vm_compute; reflexivity).
  rewrite forallb_forall in Hall. apply Nat.eqb_eq, Hall.
  apply list_elem_of_In, elem_of_range. lia.
Qed.

Lemma str_app_assoc a b c : (a +:+ b) +:+ c = a +:+ b +:+ c.
Proof. induction a as [|x a IH]; [reflexivity|]. rewrite !str_app_cons. now rewrite IH. Qed.

Lemma daily_name_slices year day :
  1 <= day <= 25 -> String.length (Py.str year) = 4%nat ->
  Py.slice None (Some 4) (daily_name year day) = Py.str year
  /\ Py.slice (Some 5) (Some 7) (daily_name year day) = Py.zfill 2 (Py.str day).
Proof.
  intros Hday Hlen. destruct (zfill_day day Hday) as [Hz _]. unfold daily_name. split.
  - change 4 with (Z.of_nat 4). rewrite <- Hlen. apply slice_prefix.
  - pose proof (H := slice_middle (Py.str year +:+ "-") (Py.zfill 2 (Py.str day)) ".html").
    rewrite str_length_app, Hlen, Hz, str_app_assoc in H. exact H.
Qed.

Lemma yearly_name_slice year :
  String.length (Py.str year) = 4%nat ->
  Py.slice None (Some 4) (yearly_name year) = Py.str year.
Proof.
  intros Hlen. unfold yearly_name. change 4 with (Z.of_nat 4). rewrite <- Hlen.
  apply slice_prefix.
Qed.

(** X11.  The parse loops rebuild the name of the file to open from
    the first four characters of the listed name (and, for a daily
    file, its characters 5 to 7).  For a file that a download named
    after a year whose decimal form has four characters, as every year
    from 1000 to 9999 has, the slices give back the year and the
    two-digit day, and the file opened is the file listed.  For a year
    of any other width the rebuilt name is not the name of the file,
    so the loop opens another file or skips. *)
Theorem file_name_round_trip year day :
  1 <= day <= 25 ->
  (String.length (Py.str year) = 4%nat ->
     Py.slice None (Some 4) (daily_name year day) = Py.str year
     /\ Py.slice (Some 5) (Some 7) (daily_name year day) = Py.zfill 2 (Py.str day)
     /\ Py.slice None (Some 4) (daily_name year day) +:+ "-"
          +:+ Py.slice (Some 5) (Some 7) (daily_name year day) +:+ ".html"
        = daily_name year day
     /\ Py.slice None (Some 4) (yearly_name year) = Py.str year
     /\ Py.slice None (Some 4) (yearly_name year) +:+ "-stats.html" = yearly_name year)
  /\ (String.length (Py.str year) <> 4%nat ->
        Py.slice None (Some 4) (daily_name year day) +:+ "-"
          +:+ Py.slice (Some 5) (Some 7) (daily_name year day) +:+ ".html"
        <> daily_name year day
        /\ Py.slice None (Some 4) (yearly_name year) +:+ "-stats.html" <> yearly_name year)
  /\ (1000 <= year <= 9999 -> String.length (Py.str year) = 4%nat).
Proof.
  intros Hday. split; [|split].
  - intros Hlen. destruct (daily_name_slices year day Hday Hlen) as [Hy Hd].
    rewrite Hy, Hd, (yearly_name_slice year Hlen). repeat split; reflexivity.
  - intros Hlen. destruct (zfill_day day Hday) as [Hz _]. split.
    + intros H. apply (f_equal String.length) in H.
      rewrite !str_length_app, length_slice_to, length_slice in H by lia.
      unfold daily_name in H. rewrite !str_length_app, Hz in H.
      change (Z.to_nat 4) with 4%nat in H. change (Z.to_nat 5) with 5%nat in H.
      change (Z.to_nat 7) with 7%nat in H. change (String.length ".html") with 5%nat in H.
      change (String.length "-") with 1%nat in H. lia.
    + intros H. apply (f_equal String.length) in H.
      rewrite !str_length_app, length_slice_to in H by lia.
      unfold yearly_name in H. rewrite !str_length_app in H.
      change (Z.to_nat 4) with 4%nat in H.
      change (String.length "-stats.html") with 11%nat in H. lia.
  - apply str_four_digits.
Qed.

Lemma file_name_round_trip_2015 :
  1 <= 1 <= 25
  /\ String.length (Py.str 2015) = 4%nat
  /\ Py.slice None (Some 4) (daily_name 2015 1) +:+ "-"
       +:+ Py.slice (Some 5) (Some 7) (daily_name 2015 1) +:+ ".html"
     = daily_name 2015 1
  /\ String.length (Py.str 10000) <> 4%nat
  /\ Py.slice None (Some 4) (daily_name 10000 1) +:+ "-"
       +:+ Py.slice (Some 5) (Some 7) (daily_name 10000 1) +:+ ".html"
     <> daily_name 10000 1.
Proof.
  assert (Hd : 1 <= 1 <= 25) by lia.
  assert (H1 : String.length (Py.str 2015) = 4%nat) by reflexivity.
  assert (H2 : String.length (Py.str 10000) <> 4%nat) by discriminate.
  split; [exact Hd|]. split; [exact H1|].
  split; [exact (proj1 (proj2 (proj2 (proj1 (file_name_round_trip 2015 1 Hd) H1))))|].
  split; [exact H2|].
  exact (proj1 (proj1 (proj2 (file_name_round_trip 10000 1 Hd)) H2)).
Defined.



(** * When the frames are built *)

Section FrameFacts.

Variable numeric_of_str : string -> result Pd.cell.
Variable timedelta_of : pyval -> result Pd.cell.

Lemma make_yearly_frame_width records :
  records <> [] -> Pd.width records <> 4%nat ->
  Pd.make_yearly_frame numeric_of_str records = Raise ValueError.
Proof.
  intros Hne Hw. unfold Pd.make_yearly_frame, Pd.DataFrame.
  destruct records as [|r rs]; [contradiction|].
  now destruct (Nat.eqb_spec (Pd.width (r :: rs)) 4).
Qed.


Lemma numeric_wide_Ok (r : record) :
  (length r <= 4)%nat ->
  (forall k, (k < 4)%nat -> exists c, Pd.to_numeric numeric_of_str (r !! k) = Ok c) ->
  exists w, Pd.numeric_wide numeric_of_str (Pd.pad 4 r) = Ok w.
Proof.
  intros Hle Hread. rewrite (pad_lookups r Hle). unfold Pd.numeric_wide.
  destruct (Hread 0%nat) as [y ->]; [lia|]. destruct (Hread 1%nat) as [d ->]; [lia|].
  destruct (Hread 2%nat) as [s ->]; [lia|]. destruct (Hread 3%nat) as [f ->]; [lia|].
  simpl. eauto.
Qed.



End FrameFacts.

(** X13.  The yearly frame is built exactly when the data is empty or
    its longest tuple has four fields, and each of the first four
    fields of every tuple, where present, reads as a number; then it
    has two rows per tuple.  Data whose longest tuple has another
    number of fields is refused with ValueError whatever it holds. *)
Theorem make_yearly_frame_returns numeric_of_str records :
  ((exists frame, Pd.make_yearly_frame numeric_of_str records = Ok frame) <->
   (records = [] \/ Pd.width records = 4%nat)
   /\ forall (r : record) k, r ∈ records -> (k < 4)%nat ->
        exists c, Pd.to_numeric numeric_of_str (r !! k) = Ok c)
  /\ (forall frame, Pd.make_yearly_frame numeric_of_str records = Ok frame ->
        length frame = (2 * length records)%nat)
  /\ (records <> [] -> Pd.width records <> 4%nat ->
        Pd.make_yearly_frame numeric_of_str records = Raise ValueError).
Proof.
  split; [split|split].
  - intros [frame H]. apply make_yearly_frame_Ok in H as (ws & Hw & Hws & _).
    split; [assumption|]. intros r k Hin Hk.
    destruct (rmap_Ok_all _ _ _ (Pd.pad 4 r) Hws) as [w Hnum].
    { apply list_elem_of_fmap. eauto. }
    assert (Hle : (length r <= 4)%nat).
    { destruct Hw as [-> | <-]; [now apply elem_of_nil in Hin | now apply width_le]. }
    rewrite (pad_lookups r Hle) in Hnum.
    apply numeric_wide_inv in Hnum as (Hy & Hd & Hs & Hf).
    destruct k as [|[|[|[|k]]]]; eauto. lia.
  - intros [Hw Hread].
    destruct (rmap_total (Pd.numeric_wide numeric_of_str) (map (Pd.pad 4) records))
      as [ws Hws].
    { intros row Hrow. apply list_elem_of_fmap in Hrow as (r & -> & Hin).
      apply numeric_wide_Ok.
      - destruct Hw as [-> | <-]; [now apply elem_of_nil in Hin | now apply width_le].
      - intros k Hk. now apply Hread. }
    eexists. apply make_yearly_frame_Ok. eauto.
  - intros frame H. apply make_yearly_frame_Ok in H as (ws & _ & Hws & ->).
    apply rmap_Ok_lookup in Hws as [Hlen _]. rewrite length_map in Hlen.
    unfold Pd.melt. rewrite length_app, !length_map. lia.
  - apply make_yearly_frame_width.
Qed.

Lemma make_yearly_frame_returns_ragged :
  [[PyStr "2015"; PyStr "25"; PyStr "50"; PyStr "10"]; [PyStr "2015"; PyStr "24"]] <> []
  /\ (exists frame,
        Pd.make_yearly_frame Pd.numeric_of_literal
          [[PyStr "2015"; PyStr "25"; PyStr "50"; PyStr "10"]; [PyStr "2015"; PyStr "24"]]
        = Ok frame /\ length frame = 4%nat)
  /\ Pd.width [[PyStr "2015"; PyStr "25"; PyStr "50"]] <> 4%nat
  /\ Pd.make_yearly_frame Pd.numeric_of_literal [[PyStr "2015"; PyStr "25"; PyStr "50"]]
     = Raise ValueError.
Proof.
  destruct (make_yearly_frame_returns Pd.numeric_of_literal
              [[PyStr "2015"; PyStr "25"; PyStr "50"; PyStr "10"]; [PyStr "2015"; PyStr "24"]])
    as (_ & Hlen & _).
  destruct (make_yearly_frame_returns Pd.numeric_of_literal
              [[PyStr "2015"; PyStr "25"; PyStr "50"]]) as (_ & _ & Hraise).
  split; [discriminate|]. split.
  - eexists. split; [reflexivity|]. apply (Hlen _ eq_refl).
  - split; [discriminate|]. apply Hraise; discriminate.
Defined.



Lemma parse_daily_page_raises_stray :
  parse_daily_page "2015" "01" stray_div_page = Raise AttributeError
  /\ (exists main entry,
        Bs4.find "main" stray_div_page = Some main
        /\ entry ∈ Bs4.find_all "div" main
        /\ is_entry_block entry = false)
  /\ exists e, parse_daily_page "2015" "01" stray_div_page = Raise e.
Proof.
  destruct (parse_daily_page_raises "2015" "01" stray_div_page) as (_ & Hiff & _).
  assert (H : exists main entry,
             Bs4.find "main" stray_div_page = Some main
             /\ entry ∈ Bs4.find_all "div" main
             /\ is_entry_block entry = false).
  { eexists _, (Bs4.Tag "div" [] []). split; [reflexivity|]. split; [|reflexivity].
    vm_compute. right. left. }
  split; [reflexivity|]. split; [exact H|]. apply Hiff. right. exact H.
Defined.

Lemma parse_yearly_page_cases_sample :
  exists records,
    parse_yearly_page "2015" stats_page_2 = Ok records
    /\ length records = 2%nat
    /\ forall i r, records !! i = Some r ->
         exists anchor fields,
           [stats_anchor "25 " " 50" " 10"; stats_anchor " 24 " "7" "3 "] !! i = Some anchor
           /\ r = PyStr "2015" :: map PyStr fields
           /\ fields = take 3 (Py.split (Bs4.getText anchor))
           /\ (length fields <= 3)%nat
           /\ Forall token fields.
Proof. exact (parse_yearly_page_cases "2015" stats_page_2). Defined.

(** * The text a download writes *)

Lemma list_ascii_of_string_app s t :
  list_ascii_of_string (s +:+ t) = list_ascii_of_string s ++ list_ascii_of_string t.
Proof. induction s as [|c s IH]; [reflexivity|]. rewrite str_app_cons. simpl. now rewrite IH. Qed.

Lemma repr_byte_printable quote b :
  quote = Py.squote \/ quote = Py.dquote ->
  forallb printable (list_ascii_of_string (Py.repr_byte quote b)) = true.
Proof. intros [-> | ->]; destruct b; vm_compute; reflexivity. Qed.

Lemma unescape_repr_byte quote b rest :
  quote = Py.squote \/ quote = Py.dquote ->
  unescape quote (Py.repr_byte quote b +:+ rest) = option_map (cons b) (unescape quote rest).
Proof. intros [-> | ->]; destruct b; reflexivity. Qed.

Lemma str_bytes_shape content :
  exists quote,
    (quote = Py.squote \/ quote = Py.dquote)
    /\ Py.str_bytes content
       = String "b" (String quote
           (fold_right (fun x acc => Py.repr_byte quote x +:+ acc) (String quote "") content)).
Proof.
  unfold Py.str_bytes.
  destruct (Py.has_byte Py.squote content && negb (Py.has_byte Py.dquote content)); eauto.
Qed.

Lemma literal_bytes_str_bytes content : literal_bytes (Py.str_bytes content) = Some content.
Proof.
  destruct (str_bytes_shape content) as (quote & Hq & ->).
  unfold literal_bytes. change (Ascii.eqb "b" "b") with true. cbv iota.
  induction content as [|x content IH]; simpl.
  - destruct Hq as [-> | ->]; reflexivity.
  - now rewrite (unescape_repr_byte quote x _ Hq), IH.
Qed.

(** X15.  The text [str] makes of a response body, which is what a
    download writes, holds printable ASCII characters only, whatever
    bytes the body holds. *)
Theorem str_bytes_printable content :
  Forall (fun c => printable c = true) (list_ascii_of_string (Py.str_bytes content)).
Proof.
  destruct (str_bytes_shape content) as (quote & Hq & ->).
  assert (Hquote : printable quote = true) by (destruct Hq as [-> | ->]; reflexivity).
  cbn [list_ascii_of_string].
  constructor; [reflexivity|]. constructor; [exact Hquote|].
  induction content as [|x content IH]; cbn [fold_right list_ascii_of_string].
  - constructor; [exact Hquote | constructor].
  - rewrite list_ascii_of_string_app. apply Forall_app. split; [|exact IH].
    apply List.Forall_forall, forallb_forall. now apply repr_byte_printable.
Qed.

(** X16.  [str] of a response body loses nothing: two bodies with the
    same text are the same body, so the body can be read back from the
    file a download wrote. *)
Theorem str_bytes_inj content content' :
  Py.str_bytes content = Py.str_bytes content' -> content = content'.
Proof.
  intros H. apply (f_equal literal_bytes) in H.
  rewrite !literal_bytes_str_bytes in H. now injection H.
Qed.

Lemma str_bytes_inj_sample :
  Py.str_bytes sample_body = Py.str_bytes [x3c; x70; x3e; x68; x69; x3c; x2f; x70; x3e; x0a]
  /\ sample_body = [x3c; x70; x3e; x68; x69; x3c; x2f; x70; x3e; x0a].
Proof.
  assert (H : Py.str_bytes sample_body
              = Py.str_bytes [x3c; x70; x3e; x68; x69; x3c; x2f; x70; x3e; x0a])
    by reflexivity.
  split; [exact H | exact (str_bytes_inj _ _ H)].
Defined.

(** * The builds as a composition *)

(** X17.  The frame a build returns is the frame of the records that
    the parse loop reads in the world the download left (the world as
    it is when there is no download): the download never makes a build
    raise, and a build raises what the parse or the frame raises. *)
Theorem make_is_frame_of_parse network html_parser numeric_of_str timedelta_of
    download first_year last_year w :
  (make_daily network html_parser numeric_of_str timedelta_of
     download first_year last_year w).1
  = (records ← (parse_daily html_parser
                  (if download then (download_daily network first_year last_year w).2
                   else w)).1;
     Pd.make_daily_frame numeric_of_str timedelta_of records)
  /\ (make_yearly network html_parser numeric_of_str download first_year last_year w).1
     = (yearly ← (parse_yearly html_parser
                    (if download then (download_yearly network first_year last_year w).2
                     else w)).1;
        Pd.make_yearly_frame numeric_of_str yearly).
Proof.
  split.
  - unfold make_daily.
    set (w1 := if download then (download_daily network first_year last_year w).2 else w).
    assert (H1 : (if download then download_daily network first_year last_year else mret tt) w
                 = (Ok tt, w1)).
    { unfold w1. destruct download; [now rewrite download_daily_eq | reflexivity]. }
    rewrite (bind_Ok _ _ _ _ _ H1). unfold mbind at 1, M_bind.
    destruct (parse_daily html_parser w1) as [[records|e] w2]; [|reflexivity].
    unfold mbind at 1, M_bind, lift. cbn [fst mbind result_bind].
    destruct (Pd.make_daily_frame numeric_of_str timedelta_of records); reflexivity.
  - unfold make_yearly.
    set (w1 := if download then (download_yearly network first_year last_year w).2 else w).
    assert (H1 : (if download then download_yearly network first_year last_year else mret tt) w
                 = (Ok tt, w1)).
    { unfold w1. destruct download; [now rewrite download_yearly_eq | reflexivity]. }
    rewrite (bind_Ok _ _ _ _ _ H1). unfold mbind at 1, M_bind.
    destruct (parse_yearly html_parser w1) as [[records|e] w2]; [|reflexivity].
    unfold mbind at 1, M_bind, lift. cbn [fst mbind result_bind].
    destruct (Pd.make_yearly_frame numeric_of_str records); reflexivity.
Qed.
